(** * asxtracker: the two workbook inspection scripts

    A shallow embedding of [inspect_xlsx.py] and [inspect_xlsx_advanced.py].

    Both scripts check that a fixed path exists, open it as a zip archive,
    read the member [xl/workbook.xml], decode it as UTF-8 and pull the sheet
    names (and, in the advanced script, the visibility state) out of the
    text with regular expressions.  The embedding has four layers:

    - Python text ([pystr], a list of code points) and strict UTF-8 decoding;
    - the fragment of Python's [re] the scripts use: a backtracking matcher
      with greedy repetition and capture groups, [re.search], [re.findall];
    - the interpreter state (file system, standard output, library calls)
      and a small state-and-exception monad for the statements;
    - the two scripts themselves, statement by statement.

    What the model takes from the environment: whether a path exists, what
    opening it with openpyxl and with zipfile gives, and the message of a
    decoding error.  Failures of the libraries are exceptions derived from
    [Exception]; [print] and the closing of the archive do not fail. *)

From Stdlib.Strings Require Import String Ascii Byte.
From Stdlib Require Import List NArith ZArith Bool Lia.
Import ListNotations.

(* [length] is the length of a list throughout. *)
Abbreviation length := Datatypes.length (only parsing).

(** ** Python text *)

(** A Python [str] is a sequence of Unicode code points. *)
Definition char := N.
Definition pystr := list char.

(** A source-code literal (ASCII) as Python text. *)
Definition lit (s : string) : pystr := map N_of_ascii (list_ascii_of_string s).

(** The two delimiters the patterns are built around. *)
Definition dquote : char := 34%N.   (* the double quote *)
Definition rangle : char := 62%N.   (* the closing angle bracket *)

(** [strip_prefix l s]: [s] without its prefix [l], when it starts with [l]. *)
Fixpoint strip_prefix (l s : pystr) : option pystr :=
  match l with
  | [] => Some s
  | c :: l' =>
      match s with
      | x :: s' => if N.eqb x c then strip_prefix l' s' else None
      | [] => None
      end
  end.

Definition startswith (s l : pystr) : bool :=
  match strip_prefix l s with Some _ => true | None => false end.

(** Substring test, Python's [l in s]. *)
Fixpoint occurs (l s : pystr) : bool :=
  startswith s l ||
  match s with
  | [] => false
  | _ :: s' => occurs l s'
  end.

(** ** Strict UTF-8 decoding, [bytes.decode('utf-8')] *)

Module Utf8.

Local Open Scope N_scope.

Definition continuation (b : N) : bool := (0x80 <=? b) && (b <=? 0xBF).
Definition within (lo hi b : N) : bool := (lo <=? b) && (b <=? hi).
Definition low6 (b : N) : N := N.land b 0x3F.

(** Allowed range of the second byte, by lead byte: overlong forms,
    surrogates and code points above U+10FFFF are refused. *)
Definition second_ok (b0 b1 : N) : bool :=
  if b0 =? 0xE0 then within 0xA0 0xBF b1
  else if b0 =? 0xED then within 0x80 0x9F b1
  else if b0 =? 0xF0 then within 0x90 0xBF b1
  else if b0 =? 0xF4 then within 0x80 0x8F b1
  else continuation b1.

Fixpoint decode_N (bs : list N) : option pystr :=
  match bs with
  | [] => Some []
  | b0 :: r0 =>
      if b0 <? 0x80 then option_map (cons b0) (decode_N r0)
      else if b0 <? 0xC2 then None
      else if b0 <? 0xE0 then
        match r0 with
        | b1 :: r1 =>
            if continuation b1
            then option_map
                   (cons (N.lor (N.shiftl (N.land b0 0x1F) 6) (low6 b1)))
                   (decode_N r1)
            else None
        | [] => None
        end
      else if b0 <? 0xF0 then
        match r0 with
        | b1 :: b2 :: r2 =>
            if second_ok b0 b1 && continuation b2
            then option_map
                   (cons (N.lor (N.shiftl (N.land b0 0x0F) 12)
                            (N.lor (N.shiftl (low6 b1) 6) (low6 b2))))
                   (decode_N r2)
            else None
        | _ => None
        end
      else if b0 <? 0xF5 then
        match r0 with
        | b1 :: b2 :: b3 :: r3 =>
            if second_ok b0 b1 && continuation b2 && continuation b3
            then option_map
                   (cons (N.lor (N.shiftl (N.land b0 0x07) 18)
                            (N.lor (N.shiftl (low6 b1) 12)
                               (N.lor (N.shiftl (low6 b2) 6) (low6 b3)))))
                   (decode_N r3)
            else None
        | _ => None
        end
      else None
  end.

Definition decode (bs : list byte) : option pystr :=
  decode_N (map Byte.to_N bs).

End Utf8.

(** ** The fragment of Python's [re] used by the scripts *)

Module Re.

(** A one-character item: the literal [c] or the negated class [[^c]]. *)
Inductive cset :=
| Only (c : char)
| Except (c : char).

Definition cset_mem (p : cset) (x : char) : bool :=
  match p with
  | Only c => N.eqb x c
  | Except c => negb (N.eqb x c)
  end.

Inductive regex :=
| Lit (l : pystr)            (* a run of literal characters *)
| Star (p : cset)            (* greedy [p*] *)
| Plus (p : cset)            (* greedy [p+] *)
| Group (r : regex)          (* capturing parentheses *)
| Cat (r1 r2 : regex).       (* concatenation *)

Section Matcher.

Variable R : Type.

(** Greedy repetition with backtracking: take as many characters of the
    class as possible, then give one back at a time until the rest of
    the pattern (the continuation [k]) succeeds. *)
Fixpoint greedy (p : cset) (s : pystr) (k : pystr -> option R) : option R :=
  match s with
  | x :: s' =>
      if cset_mem p x
      then match greedy p s' k with
           | Some r => Some r
           | None => k s
           end
      else k s
  | [] => k []
  end.

(** [rmatch r s caps k]: match [r] at the front of [s]; [caps] are the
    groups closed so far, [k] is the rest of the pattern. *)
Fixpoint rmatch (r : regex) (s : pystr) (caps : list pystr)
         (k : pystr -> list pystr -> option R) : option R :=
  match r with
  | Lit l =>
      match strip_prefix l s with
      | Some s' => k s' caps
      | None => None
      end
  | Star p => greedy p s (fun s' => k s' caps)
  | Plus p =>
      match s with
      | x :: s' =>
          if cset_mem p x then greedy p s' (fun s'' => k s'' caps) else None
      | [] => None
      end
  | Group r1 =>
      rmatch r1 s caps
        (fun s' caps' =>
           k s' (caps' ++ [firstn (length s - length s') s]))
  | Cat r1 r2 =>
      rmatch r1 s caps (fun s' caps' => rmatch r2 s' caps' k)
  end.

End Matcher.

Arguments greedy {R} p s k.
Arguments rmatch {R} r s caps k.

(** A match object: the matched text, [group(0)], and the groups. *)
Record match_obj := MatchObj { whole : pystr; groups : list pystr }.

(** [m.group(1)]; the patterns it is used with have one group. *)
Definition group1 (m : match_obj) : pystr := hd [] (groups m).

(** Match at the front of [s]: the match object and the unread rest. *)
Definition match_here (r : regex) (s : pystr) : option (match_obj * pystr) :=
  rmatch r s []
    (fun rest caps =>
       Some (MatchObj (firstn (length s - length rest) s) caps, rest)).

(** [re.search]: the match at the leftmost position that has one. *)
Fixpoint search (r : regex) (s : pystr) : option match_obj :=
  match match_here r s with
  | Some (m, _) => Some m
  | None =>
      match s with
      | [] => None
      | _ :: s' => search r s'
      end
  end.

(** What [re.findall] reports for a match: the group when the pattern
    has one, the whole match when it has none. *)
Definition findall_item (m : match_obj) : pystr :=
  match groups m with
  | [] => whole m
  | g :: _ => g
  end.

(** [re.findall]: leftmost matches, left to right, without overlap.
    [skip] counts the characters still covered by the previous match. *)
Fixpoint findall_from (r : regex) (s : pystr) (skip : nat) : list pystr :=
  match skip with
  | S n =>
      match s with
      | [] => []
      | _ :: s' => findall_from r s' n
      end
  | O =>
      match match_here r s with
      | Some (m, _) =>
          findall_item m ::
          match s with
          | [] => []
          | _ :: s' => findall_from r s' (length (whole m) - 1)
          end
      | None =>
          match s with
          | [] => []
          | _ :: s' => findall_from r s' 0
          end
      end
  end.

Definition findall (r : regex) (s : pystr) : list pystr := findall_from r s 0.

End Re.

Import Re.

Declare Scope regex_scope.
Delimit Scope regex_scope with re.
Infix "·" := Cat (at level 41, right associativity) : regex_scope.


(** ** The interpreter: exceptions, state and statements *)

(** The exception classes the scripts can meet.  All of them derive from
    [Exception]; only [ImportError] is told apart by a handler. *)
Inductive exn_class :=
| ImportError
| UnicodeDecodeError
| BadZipFile
| OtherException.

(** An exception object; [exn_str] is the text of [str(e)]. *)
Record exn := Exn { exn_kind : exn_class; exn_str : pystr }.

Definition is_ImportError (e : exn) : bool :=
  match exn_kind e with ImportError => true | _ => false end.

(** What unwinds the stack: an exception, or [SystemExit] from [sys.exit],
    which does not derive from [Exception]. *)
Inductive signal :=
| Exception (e : exn)
| SystemExit (code : Z).

(** A member of a zip archive: its name and what opening and reading it
    gives, the bytes or the exception raised on the way. *)
Record zip_member := ZipMember { filename : pystr; payload : exn + list byte }.

Definition archive := list zip_member.

(** What the scripts can observe of their environment. *)
Record world := World {
  (** [os.path.exists(path)] *)
  path_exists : pystr -> bool;
  (** [import openpyxl]: the exception raised, if any *)
  import_openpyxl : option exn;
  (** [openpyxl.load_workbook(path, read_only=True)]: the exception raised,
      or the workbook's [sheetnames] *)
  load_workbook : pystr -> exn + list pystr;
  (** [zipfile.ZipFile(path, 'r')]: the exception raised, or the archive *)
  ZipFile : pystr -> exn + archive;
  (** the text of the [UnicodeDecodeError] raised on undecodable bytes *)
  decode_error_str : list byte -> pystr
}.

(** The library calls a run makes, in order. *)
Inductive call :=
| call_exists (path : pystr)
| call_import_openpyxl
| call_load_workbook (path : pystr)
| call_ZipFile (path : pystr)
| call_namelist
| call_open (member : pystr)
| call_decode.

Record state := State {
  env : world;
  stdout : list pystr;          (* what each print call wrote, oldest first *)
  calls : list call             (* the library calls made so far *)
}.

Definition initial (w : world) : state := State w [] [].

Inductive outcome (A : Type) :=
| Normal (a : A)
| Raised (sg : signal).

Arguments Normal {A} a.
Arguments Raised {A} sg.

Definition M (A : Type) := state -> outcome A * state.

Definition ret {A} (a : A) : M A := fun st => (Normal a, st).

Definition bind {A B} (m : M A) (k : A -> M B) : M B :=
  fun st =>
    match m st with
    | (Normal a, st') => k a st'
    | (Raised sg, st') => (Raised sg, st')
    end.

Declare Scope py_scope.
Delimit Scope py_scope with py.
Notation "x <- m ;; k" := (bind m (fun x => k))
  (at level 61, m at next level, right associativity) : py_scope.
Notation "m ;; k" := (bind m (fun _ => k))
  (at level 61, right associativity) : py_scope.
Local Open Scope py_scope.

Definition raise {A} (sg : signal) : M A := fun st => (Raised sg, st).

(** [print(line)] *)
Definition print (line : pystr) : M unit :=
  fun st => (Normal tt, State (env st) (stdout st ++ [line]) (calls st)).

Definition log (c : call) : M unit :=
  fun st => (Normal tt, State (env st) (stdout st) (calls st ++ [c])).

Definition ask : M world := fun st => (Normal (env st), st).

(** [sys.exit(code)] *)
Definition sys_exit {A} (code : Z) : M A := raise (SystemExit code).

(** [try: body  except Exception as e: handler(e)].  [SystemExit] is not an
    [Exception] and passes through. *)
Definition try_except {A} (body : M A) (handler : exn -> M A) : M A :=
  fun st =>
    match body st with
    | (Raised (Exception e), st') => handler e st'
    | r => r
    end.

(** [for x in xs: body(x)] *)
Fixpoint for_each {A} (xs : list A) (body : A -> M unit) : M unit :=
  match xs with
  | [] => ret tt
  | x :: xs' => body x ;; for_each xs' body
  end.

(** Lifting a library result: return the value or raise the exception. *)
Definition lift {A} (r : exn + A) : M A :=
  match r with
  | inl e => raise (Exception e)
  | inr a => ret a
  end.

(** The library calls. *)

Definition os_path_exists (path : pystr) : M bool :=
  log (call_exists path) ;; w <- ask ;; ret (path_exists w path).

Definition import_openpyxl_module : M unit :=
  log call_import_openpyxl ;;
  w <- ask ;;
  match import_openpyxl w with
  | Some e => raise (Exception e)
  | None => ret tt
  end.

Definition openpyxl_load_workbook (path : pystr) : M (list pystr) :=
  log (call_load_workbook path) ;; w <- ask ;; lift (load_workbook w path).

Definition zipfile_ZipFile (path : pystr) : M archive :=
  log (call_ZipFile path) ;; w <- ask ;; lift (ZipFile w path).

Fixpoint pystr_eqb (a b : pystr) : bool :=
  match a, b with
  | [], [] => true
  | x :: a', y :: b' => N.eqb x y && pystr_eqb a' b'
  | _, _ => false
  end.

(** [z.namelist()] *)
Definition namelist (z : archive) : list pystr := map filename z.

Definition zip_namelist (z : archive) : M (list pystr) :=
  log call_namelist ;; ret (namelist z).

(** [name in names] *)
Definition member_of (name : pystr) (names : list pystr) : bool :=
  existsb (pystr_eqb name) names.

(** The entry [z.open(name)] reads: of several entries with one name the
    archive's name table keeps the last. *)
Definition getinfo (z : archive) (name : pystr) : option zip_member :=
  find (fun m => pystr_eqb name (filename m)) (rev z).

(** [z.open(name).read()]; a missing name is a [KeyError]. *)
Definition zip_read (z : archive) (name : pystr) : M (list byte) :=
  log (call_open name) ;;
  match getinfo z name with
  | Some m => lift (payload m)
  | None => raise (Exception (Exn OtherException (lit "KeyError")))
  end.

(** [data.decode('utf-8')] *)
Definition decode_utf8 (data : list byte) : M pystr :=
  log call_decode ;;
  match Utf8.decode data with
  | Some text => ret text
  | None =>
      w <- ask ;;
      raise (Exception (Exn UnicodeDecodeError (decode_error_str w data)))
  end.

(** Running a script as the main module: the exit status and final state.
    Falling off the end exits with 0, [sys.exit(n)] with [n], an exception
    nobody caught with 1 (after a traceback on standard error). *)
Definition run_script (m : M unit) (st : state) : Z * state :=
  match m st with
  | (Normal _, st') => (0%Z, st')
  | (Raised (SystemExit code), st') => (code, st')
  | (Raised (Exception _), st') => (1%Z, st')
  end.

(** ** The scripts *)

(** The module-level constant [file_path]. *)
Definition file_path : pystr := lit "App Database.xlsx".

Definition workbook_xml : pystr := lit "xl/workbook.xml".

Definition zip_banner : pystr := lit "Method: zipfile (fallback)".
Definition missing_member_line : pystr :=
  lit "Error: xl/workbook.xml not found in zip.".

(** The check both scripts start with:
    [if not os.path.exists(file_path): print(...); sys.exit(1)]. *)
Definition require_file (path : pystr) : M unit :=
  found <- os_path_exists path ;;
  if negb found
  then print (lit "File not found: " ++ path) ;; sys_exit 1
  else ret tt.

(** *** inspect_xlsx.py *)

Module Simple.

(** The pattern [<sheet [^>]*name=Q([^Q]+)Q], writing Q for the double
    quote character. *)
Definition sheet_re : regex :=
  (Lit (lit "<sheet ") · Star (Except rangle) · Lit (lit "name=" ++ [dquote])
     · Group (Plus (Except dquote)) · Lit [dquote])%re.

Definition sheet_line (sheet : pystr) : pystr := lit "Sheet: " ++ sheet.

Definition inspect_via_openpyxl (path : pystr) : M bool :=
  try_except
    (import_openpyxl_module ;;
     sheetnames <- openpyxl_load_workbook path ;;
     print (lit "Method: openpyxl") ;;
     for_each sheetnames (fun sheet => print (sheet_line sheet)) ;;
     ret true)
    (fun e =>
       if is_ImportError e
       then ret false
       else print (lit "openpyxl error: " ++ exn_str e) ;; ret false).

Definition inspect_via_zip (path : pystr) : M unit :=
  print zip_banner ;;
  try_except
    (z <- zipfile_ZipFile path ;;
     names <- zip_namelist z ;;
     if member_of workbook_xml names
     then
       data <- zip_read z workbook_xml ;;
       content <- decode_utf8 data ;;
       let sheets := findall sheet_re content in
       for_each sheets (fun sheet => print (sheet_line sheet))
     else print missing_member_line)
    (fun e => print (lit "zipfile error: " ++ exn_str e)).

Definition script (path : pystr) : M unit :=
  require_file path ;;
  ok <- inspect_via_openpyxl path ;;
  if negb ok then inspect_via_zip path else ret tt.

Definition main : M unit := script file_path.

End Simple.

(** *** inspect_xlsx_advanced.py *)

Module Advanced.

(** [r'<sheet [^>]*>'] *)
Definition tag_re : regex :=
  (Lit (lit "<sheet ") · Star (Except rangle) · Lit [rangle])%re.

(** The patterns [name=Q([^Q]+)Q] and [state=Q([^Q]+)Q], writing Q for
    the double quote character. *)
Definition attr_re (key : pystr) : regex :=
  (Lit (key ++ lit "=" ++ [dquote]) · Group (Plus (Except dquote))
     · Lit [dquote])%re.

Definition name_re : regex := attr_re (lit "name").
Definition state_re : regex := attr_re (lit "state").

(** The two values the loop body computes for a tag. *)
Record descriptor := Descriptor { name : pystr; state : pystr }.

Definition describe (tag : pystr) : descriptor :=
  let name_match := search name_re tag in
  let state_match := search state_re tag in
  Descriptor
    (match name_match with Some m => group1 m | None => lit "Unknown" end)
    (match state_match with Some m => group1 m | None => lit "visible" end).

(** The formatted line [Sheet: {name} (State: {state})]. *)
Definition sheet_line (d : descriptor) : pystr :=
  lit "Sheet: " ++ name d ++ lit " (State: " ++ state d ++ lit ")".

Definition inspect_via_zip (path : pystr) : M unit :=
  print zip_banner ;;
  try_except
    (z <- zipfile_ZipFile path ;;
     names <- zip_namelist z ;;
     if member_of workbook_xml names
     then
       data <- zip_read z workbook_xml ;;
       content <- decode_utf8 data ;;
       let sheet_tags := findall tag_re content in
       for_each sheet_tags (fun tag => print (sheet_line (describe tag)))
     else print missing_member_line)
    (fun e => print (lit "zipfile error: " ++ exn_str e)).

Definition script (path : pystr) : M unit :=
  require_file path ;;
  inspect_via_zip path.

Definition main : M unit := script file_path.

End Advanced.

(** ** Reading the output *)

(** What the print calls of a statement write when it is started in a fresh
    interpreter, one entry per call. *)
Definition output_of {A} (m : M A) (w : world) : list pystr :=
  stdout (snd (m (initial w))).

(** Text that starts with [Sheet:]. *)
Definition is_sheet_line (line : pystr) : bool := startswith line (lit "Sheet:").

(** The print calls that report a sheet: the entries of the output, one per
    [print] call, whose text starts with [Sheet:].  An entry is one line of
    the text on standard output when it holds no line feed; the lines
    themselves are [printed_lines]. *)
Definition sheet_lines (out : list pystr) : list pystr := filter is_sheet_line out.

(** *** The text on standard output and its lines *)

Definition line_feed : char := 10%N.

(** [print] writes its argument and a line feed. *)
Definition stdout_text (out : list pystr) : pystr :=
  concat (map (fun arg => arg ++ [line_feed]) out).

(** The pieces of a text between its line feeds, as [s.split] with a line
    feed gives them. *)
Fixpoint split_lines (s : pystr) : list pystr :=
  match s with
  | [] => [[]]
  | c :: s' =>
      if N.eqb c line_feed then [] :: split_lines s'
      else match split_lines s' with
           | l :: ls => (c :: l) :: ls
           | [] => [[c]]
           end
  end.

(** The lines of a text in which a line feed ends every line. *)
Definition text_lines (t : pystr) : list pystr := removelast (split_lines t).

(** The lines of the output: an argument with a line feed inside gives
    several. *)
Definition printed_lines (out : list pystr) : list pystr :=
  text_lines (stdout_text out).

(** The lines of the output that start with [Sheet:]. *)
Definition printed_sheet_lines (out : list pystr) : list pystr :=
  filter is_sheet_line (printed_lines out).

(** ** Source text for examples *)

(** A double quote cannot be written inside a literal here, so example XML is
    written with apostrophes and [xml] turns each of them into a double
    quote. *)
Definition xml (s : string) : pystr :=
  map (fun c => if N.eqb c 39 then dquote else c) (lit s).

(** The UTF-8 encoding of ASCII text. *)
Definition ascii_bytes (t : pystr) : list byte :=
  map (fun c => match Byte.of_N c with Some b => b | None => x00 end) t.

(** An archive the way a spreadsheet program writes it, with the given text
    as its workbook part. *)
Definition workbook_archive (content : pystr) : archive :=
  [ZipMember (lit "[Content_Types].xml") (inr []);
   ZipMember workbook_xml (inr (ascii_bytes content));
   ZipMember (lit "xl/worksheets/sheet1.xml") (inr [])].

Definition no_openpyxl : exn :=
  Exn ImportError (lit "No module named 'openpyxl'").

(** A world in which [path] is the only file, a zip archive [z], and
    openpyxl is not installed. *)
Definition world_with (path : pystr) (z : archive) : world :=
  World (fun p => pystr_eqb p path)
        (Some no_openpyxl)
        (fun _ => inl (Exn OtherException (lit "openpyxl is not installed")))
        (fun _ => inr z)
        (fun _ => lit "'utf-8' codec can't decode bytes").

(** A world with no file at all. *)
Definition empty_world : world :=
  World (fun _ => false)
        (Some no_openpyxl)
        (fun _ => inl (Exn OtherException (lit "openpyxl is not installed")))
        (fun _ => inl (Exn OtherException (lit "[Errno 2] No such file or directory")))
        (fun _ => lit "'utf-8' codec can't decode bytes").

(** A world in which [path] exists but is not a zip archive. *)
Definition world_not_a_zip (path : pystr) : world :=
  World (fun p => pystr_eqb p path)
        (Some no_openpyxl)
        (fun _ => inl (Exn OtherException (lit "openpyxl is not installed")))
        (fun _ => inl (Exn BadZipFile (lit "File is not a zip file")))
        (fun _ => lit "'utf-8' codec can't decode bytes").

(** A world in which openpyxl is installed and loads [path] as a workbook
    with the given sheets. *)
Definition world_with_openpyxl (path : pystr) (sheetnames : list pystr) : world :=
  World (fun p => pystr_eqb p path)
        None
        (fun _ => inr sheetnames)
        (fun _ => inr [])
        (fun _ => lit "'utf-8' codec can't decode bytes").

(** An archive whose workbook part is the single byte FF, which no UTF-8
    text contains. *)
Definition undecodable_archive : archive :=
  [ZipMember (lit "[Content_Types].xml") (inr []);
   ZipMember workbook_xml (inr [xff])].

(** An archive without a workbook part. *)
Definition archive_without_workbook : archive :=
  [ZipMember (lit "[Content_Types].xml") (inr []);
   ZipMember (lit "docProps/app.xml") (inr [])].

(** A world whose workbook has the given text as its [xl/workbook.xml]. *)
Definition example_world (content : pystr) : world :=
  world_with file_path (workbook_archive content).

(** ** What the text scanning is meant to find *)

(** [break_at c s]: [s] cut at its first [c]. *)
Fixpoint break_at (c : char) (s : pystr) : option (pystr * pystr) :=
  match s with
  | [] => None
  | x :: s' =>
      if N.eqb x c then Some ([], s')
      else match break_at c s' with
           | Some (a, r) => Some (x :: a, r)
           | None => None
           end
  end.

Definition sheet_open : pystr := lit "<sheet ".

(** A sheet tag: [<sheet ], then characters other than the closing bracket,
    then the closing bracket. *)
Definition is_sheet_tag (t : pystr) : Prop :=
  exists a, t = sheet_open ++ a ++ [rangle] /\ ~ In rangle a.

(** [sheet_tags s ts]: [ts] are the sheet tags of [s] in the order they stand
    in the text, read from the left; a tag ends at the first closing bracket
    and the reading goes on behind it. *)
Inductive sheet_tags : pystr -> list pystr -> Prop :=
| tags_end : sheet_tags [] []
| tags_tag t r ts :
    is_sheet_tag t -> sheet_tags r ts -> sheet_tags (t ++ r) (t :: ts)
| tags_skip c s ts :
    (forall t r, is_sheet_tag t -> c :: s <> t ++ r) ->
    sheet_tags s ts -> sheet_tags (c :: s) ts.

(** The text [key=Q] that opens an attribute, Q the double quote. *)
Definition attr_open (key : pystr) : pystr := key ++ lit "=" ++ [dquote].

(** [value_at s]: the attribute value [s] starts with, a non-empty run of
    characters other than the double quote that a double quote ends. *)
Definition value_at (s : pystr) : option pystr :=
  match break_at dquote s with
  | Some (v, _) => match v with [] => None | _ => Some v end
  | None => None
  end.

(** [attr_at key s]: the value when [s] starts with [key=Qvalue Q]. *)
Definition attr_at (key s : pystr) : option pystr :=
  match strip_prefix (attr_open key) s with
  | Some s' => value_at s'
  | None => None
  end.

(** [first_attr key s]: the value at the first place in [s] where
    [key=Qvalue Q] stands, whatever precedes it. *)
Fixpoint first_attr (key s : pystr) : option pystr :=
  match attr_at key s with
  | Some v => Some v
  | None =>
      match s with
      | [] => None
      | _ :: s' => first_attr key s'
      end
  end.

(** A tag has the attribute [key] when [key=Qvalue Q] stands somewhere in
    it, the value not empty and free of double quotes. *)
Definition has_attr (key tag : pystr) : Prop :=
  exists p v r,
    tag = p ++ attr_open key ++ v ++ dquote :: r /\ v <> [] /\ ~ In dquote v.

Definition endswith (s l : pystr) : bool := startswith (rev s) (rev l).

Definition quote_free (s : pystr) : bool := forallb (fun c => negb (N.eqb c dquote)) s.

(** ** What a run prints, as a function of the world *)

(** The lines each script prints for the decoded workbook part. *)
Definition simple_content_lines (content : pystr) : list pystr :=
  map Simple.sheet_line (findall Simple.sheet_re content).

Definition advanced_content_lines (content : pystr) : list pystr :=
  map (fun tag => Advanced.sheet_line (Advanced.describe tag))
      (findall Advanced.tag_re content).

Definition zipfile_error_line (e : exn) : pystr :=
  lit "zipfile error: " ++ exn_str e.

(** The lines of the archive reader after its banner. *)
Definition zip_lines (content_lines : pystr -> list pystr)
           (w : world) (path : pystr) : list pystr :=
  match ZipFile w path with
  | inl e => [zipfile_error_line e]
  | inr z =>
      if member_of workbook_xml (namelist z)
      then match getinfo z workbook_xml with
           | Some m =>
               match payload m with
               | inl e => [zipfile_error_line e]
               | inr data =>
                   match Utf8.decode data with
                   | Some content => content_lines content
                   | None =>
                       [zipfile_error_line
                          (Exn UnicodeDecodeError (decode_error_str w data))]
                   end
               end
           | None => [zipfile_error_line (Exn OtherException (lit "KeyError"))]
           end
      else [missing_member_line]
  end.

(** The library calls of the archive reader. *)
Definition zip_calls (w : world) (path : pystr) : list call :=
  call_ZipFile path ::
  match ZipFile w path with
  | inl _ => []
  | inr z =>
      call_namelist ::
      if member_of workbook_xml (namelist z)
      then call_open workbook_xml ::
           match getinfo z workbook_xml with
           | Some m =>
               match payload m with
               | inl _ => []
               | inr _ => [call_decode]
               end
           | None => []
           end
      else []
  end.

(** What the library-backed reader meets: the exception of the import or
    of the loading, or the sheet names. *)
Definition openpyxl_result (w : world) (path : pystr) : exn + list pystr :=
  match import_openpyxl w with
  | Some e => inl e
  | None => load_workbook w path
  end.

(** The lines of the library-backed reader and its verdict. *)
Definition openpyxl_lines (w : world) (path : pystr) : list pystr :=
  match openpyxl_result w path with
  | inr sheetnames => lit "Method: openpyxl" :: map Simple.sheet_line sheetnames
  | inl e =>
      if is_ImportError e then [] else [lit "openpyxl error: " ++ exn_str e]
  end.

Definition openpyxl_ok (w : world) (path : pystr) : bool :=
  match openpyxl_result w path with inr _ => true | inl _ => false end.

Definition openpyxl_calls (w : world) (path : pystr) : list call :=
  call_import_openpyxl ::
  match import_openpyxl w with
  | Some _ => []
  | None => [call_load_workbook path]
  end.

(** The shape the two archive readers share; they differ in what they do
    with the decoded text. *)
Definition zip_reader (body : pystr -> M unit) (path : pystr) : M unit :=
  print zip_banner ;;
  try_except
    (z <- zipfile_ZipFile path ;;
     names <- zip_namelist z ;;
     if member_of workbook_xml names
     then
       data <- zip_read z workbook_xml ;;
       content <- decode_utf8 data ;;
       body content
     else print missing_member_line)
    (fun e => print (lit "zipfile error: " ++ exn_str e)).

(** A state with more output and more calls. *)
Definition extend (st : state) (lines : list pystr) (cs : list call) : state :=
  State (env st) (stdout st ++ lines) (calls st ++ cs).

(** ** Workbook text in which every sheet tag has one name *)

Definition bracket_free (s : pystr) : bool :=
  forallb (fun c => negb (N.eqb c rangle)) s.

(** The sheet tag with the attribute text [a] before the name, the name [v]
    and the attribute text [b] behind it. *)
Definition plain_tag (a v b : pystr) : pystr :=
  sheet_open ++ a ++ attr_open (lit "name") ++ v ++ dquote :: b ++ [rangle].

(** The pieces of a plain tag: no closing bracket inside, a name that is not
    empty and has no double quote, and the text [name=Q] nowhere in the tag
    but at the name attribute, Q the double quote. *)
Definition plain_tag_ok (a v b : pystr) : Prop :=
  bracket_free a = true /\ bracket_free v = true /\ bracket_free b = true /\
  v <> [] /\ quote_free v = true /\
  occurs (attr_open (lit "name")) (sheet_open ++ a ++ lit "name=") = false /\
  occurs (attr_open (lit "name")) (v ++ dquote :: b) = false.

(** [plain_workbook s names]: the text [s] is made of plain tags with the
    names [names], in this order, with text around them in which [<sheet ]
    does not stand. *)
Inductive plain_workbook : pystr -> list pystr -> Prop :=
| plain_end s :
    occurs sheet_open s = false -> plain_workbook s []
| plain_sheet pre a v b rest names :
    occurs sheet_open (pre ++ lit "<sheet") = false ->
    plain_tag_ok a v b ->
    plain_workbook rest names ->
    plain_workbook (pre ++ plain_tag a v b ++ rest) (v :: names).

(** * Proofs *)

(** ** Lists and prefixes *)

Lemma strip_prefix_app l s : strip_prefix l (l ++ s) = Some s.
Proof.
  induction l as [|c l IH]; simpl; [reflexivity|].
  now rewrite N.eqb_refl.
Qed.

Lemma strip_prefix_Some l : forall s r, strip_prefix l s = Some r -> s = l ++ r.
Proof.
  induction l as [|c l IH]; simpl; intros s r H.
  - now inversion H.
  - destruct s as [|x s]; [discriminate|].
    destruct (N.eqb_spec x c); [|discriminate].
    subst. f_equal. now apply IH.
Qed.

Lemma startswith_true s l : startswith s l = true <-> exists r, s = l ++ r.
Proof.
  unfold startswith. split.
  - destruct (strip_prefix l s) eqn:E; [|discriminate].
    intros _. eexists. eapply strip_prefix_Some; eassumption.
  - intros [r ->]. now rewrite strip_prefix_app.
Qed.

Lemma startswith_app s l : startswith (l ++ s) l = true.
Proof. apply startswith_true. now exists s. Qed.

Lemma firstn_matched (x r : pystr) :
  firstn (length (x ++ r) - length r) (x ++ r) = x.
Proof.
  rewrite length_app.
  replace (length x + length r - length r) with (length x + 0) by lia.
  rewrite firstn_app_2. simpl. apply app_nil_r.
Qed.

Lemma pystr_eqb_eq a : forall b, pystr_eqb a b = true <-> a = b.
Proof.
  induction a as [|x a IH]; intros [|y b]; simpl; split; try easy.
  - intros H. apply andb_true_iff in H as [H1 H2].
    apply N.eqb_eq in H1. apply IH in H2. now subst.
  - intros H. inversion H; subst. rewrite N.eqb_refl. now apply IH.
Qed.

Lemma pystr_eqb_refl a : pystr_eqb a a = true.
Proof. now apply pystr_eqb_eq. Qed.

Lemma member_of_In name names : member_of name names = true <-> In name names.
Proof.
  unfold member_of. rewrite existsb_exists. split.
  - intros (x & Hx & E). apply pystr_eqb_eq in E. now subst.
  - intros H. exists name. split; [assumption | apply pystr_eqb_refl].
Qed.

Lemma quote_free_In s : quote_free s = true <-> ~ In dquote s.
Proof.
  unfold quote_free. rewrite forallb_forall. split.
  - intros H Hin. specialize (H _ Hin). now rewrite N.eqb_refl in H.
  - intros H x Hx. destruct (N.eqb_spec x dquote); [now subst | reflexivity].
Qed.

Lemma break_at_app c a r : ~ In c a -> break_at c (a ++ c :: r) = Some (a, r).
Proof.
  induction a as [|x a IH]; simpl; intros H.
  - now rewrite N.eqb_refl.
  - destruct (N.eqb_spec x c) as [->|_]; [exfalso; auto|].
    rewrite IH; [reflexivity | auto].
Qed.

Lemma break_at_Some c s : forall a r,
  break_at c s = Some (a, r) -> s = a ++ c :: r /\ ~ In c a.
Proof.
  induction s as [|x s IH]; simpl; intros a r H; [discriminate|].
  destruct (N.eqb_spec x c) as [->|Hne].
  - inversion H; subst. simpl. auto.
  - destruct (break_at c s) as [[a' r']|]; [|discriminate].
    inversion H; subst. destruct (IH _ _ eq_refl) as [-> Hin].
    split; [reflexivity|]. simpl. intros [E|E]; [congruence | auto].
Qed.

Lemma break_at_None c s : break_at c s = None <-> ~ In c s.
Proof.
  induction s as [|x s IH]; simpl; [easy|].
  destruct (N.eqb_spec x c) as [->|Hne].
  - split; [discriminate | intros H; exfalso; auto].
  - destruct (break_at c s) as [[a r]|].
    + split; [discriminate|]. intros H. exfalso.
      assert (Hs : ~ In c s) by auto. apply IH in Hs. discriminate.
    + split; [|reflexivity]. intros _ [E|E]; [congruence|].
      now apply (proj1 IH).
Qed.

(** ** The decoder *)

Example decode_two_bytes : Utf8.decode [xc3; xa9] = Some [233%N].
Proof. reflexivity. Qed.

Example decode_three_bytes : Utf8.decode [xe2; x82; xac] = Some [8364%N].
Proof. reflexivity. Qed.

Example decode_four_bytes : Utf8.decode [xf0; x9f; x98; x80] = Some [128512%N].
Proof. reflexivity. Qed.

Example decode_overlong : Utf8.decode [xc0; x80] = None.
Proof. reflexivity. Qed.

Example decode_surrogate : Utf8.decode [xed; xa0; x80] = None.
Proof. reflexivity. Qed.

Example decode_truncated : Utf8.decode [xe2; x82] = None.
Proof. reflexivity. Qed.

(** ASCII text is its own UTF-8 encoding. *)
Lemma decode_ascii t :
  Forall (fun c => (c < 128)%N) t -> Utf8.decode (ascii_bytes t) = Some t.
Proof.
  unfold Utf8.decode. induction 1 as [|c t Hc _ IH]; [reflexivity|].
  cbn [ascii_bytes map].
  destruct (Byte.of_N c) as [b|] eqn:E.
  - apply Byte.to_of_N in E. rewrite E. cbn [Utf8.decode_N].
    replace (c <? 128)%N with true by (symmetry; apply N.ltb_lt; exact Hc).
    fold (ascii_bytes t). rewrite IH. reflexivity.
  - apply Byte.of_N_None_iff in E. lia.
Qed.

(** ** The matcher on the scripts' patterns *)

Section Greedy.

Variable R : Type.

Lemma greedy_ext p s (k k' : pystr -> option R) :
  (forall s', k s' = k' s') -> greedy p s k = greedy p s k'.
Proof.
  intros E. induction s as [|x s IH]; simpl; [apply E|].
  rewrite IH, E. reflexivity.
Qed.

(** A greedy run of [[^c]] that the literal [c] must follow stops at the
    first [c]: no shorter run is followed by [c]. *)
Lemma greedy_except_then c (f : pystr -> option R) k s :
  (forall s', k s' = match strip_prefix [c] s' with
                     | Some r => f r
                     | None => None
                     end) ->
  greedy (Except c) s k =
  match break_at c s with
  | Some (_, r) => f r
  | None => None
  end.
Proof.
  intros Hk. induction s as [|x s IH]; simpl.
  - rewrite Hk. reflexivity.
  - rewrite IH, Hk. simpl.
    destruct (N.eqb_spec x c) as [->|Hne]; simpl; [reflexivity|].
    destruct (break_at c s) as [[a r]|]; [|reflexivity].
    destruct (f r); reflexivity.
Qed.

(** Whatever a greedy run ends with, it has read characters of the class
    and the rest of the pattern has matched behind them. *)
Lemma greedy_sound p s (k : pystr -> option R) x :
  greedy p s k = Some x ->
  exists a r, s = a ++ r /\ forallb (cset_mem p) a = true /\ k r = Some x.
Proof.
  induction s as [|c s IH]; simpl; intros H.
  - exists [], []. auto.
  - destruct (cset_mem p c) eqn:Hc.
    + destruct (greedy p s k) as [y|] eqn:G.
      * inversion H; subst y.
        destruct (IH eq_refl) as (a & r & -> & Ha & Hr).
        exists (c :: a), r. simpl. rewrite Hc, Ha. auto.
      * exists [], (c :: s). auto.
    + exists [], (c :: s). auto.
Qed.

(** The attribute pattern, in any context: the opening text, then the
    value up to the next double quote, which must not be empty. *)
Lemma rmatch_attr_re key s caps (k : pystr -> list pystr -> option R) :
  rmatch (Advanced.attr_re key) s caps k =
  match strip_prefix (attr_open key) s with
  | Some s1 =>
      match break_at dquote s1 with
      | Some (v, r) =>
          match v with
          | [] => None
          | _ => k r (caps ++ [v])
          end
      | None => None
      end
  | None => None
  end.
Proof.
  unfold Advanced.attr_re. cbn [rmatch]. fold (attr_open key).
  destruct (strip_prefix (attr_open key) s) as [s1|]; [|reflexivity].
  destruct s1 as [|x s1]; [reflexivity|].
  cbn [cset_mem break_at].
  destruct (N.eqb_spec x dquote) as [->|Hne]; [reflexivity|]. cbn [negb].
  rewrite greedy_except_then with
    (f := fun r =>
            k r (caps ++ [firstn (length (x :: s1) - length (dquote :: r))
                            (x :: s1)])).
  - destruct (break_at dquote s1) as [[a r]|] eqn:B; [|reflexivity].
    apply break_at_Some in B as [-> _].
    change (x :: a ++ dquote :: r) with ((x :: a) ++ dquote :: r).
    rewrite firstn_matched. reflexivity.
  - intros s'. destruct (strip_prefix [dquote] s') as [r|] eqn:E; [|reflexivity].
    apply strip_prefix_Some in E. subst s'. reflexivity.
Qed.

End Greedy.

(** The tag pattern matches where the text starts with [<sheet ] and has a
    closing bracket further on, and reads up to the first of them. *)
Lemma match_here_tag_re s :
  match_here Advanced.tag_re s =
  match strip_prefix sheet_open s with
  | Some s1 =>
      match break_at rangle s1 with
      | Some (a, r) => Some (MatchObj (sheet_open ++ a ++ [rangle]) [], r)
      | None => None
      end
  | None => None
  end.
Proof.
  unfold match_here, Advanced.tag_re. cbn [rmatch]. fold sheet_open.
  destruct (strip_prefix sheet_open s) as [s1|] eqn:E; [|reflexivity].
  apply strip_prefix_Some in E. subst s.
  rewrite greedy_except_then with
    (f := fun r =>
            Some (MatchObj (firstn (length (sheet_open ++ s1) - length r)
                              (sheet_open ++ s1)) [], r)).
  - destruct (break_at rangle s1) as [[a r]|] eqn:B; [|reflexivity].
    apply break_at_Some in B as [-> _].
    replace (sheet_open ++ a ++ rangle :: r)
      with ((sheet_open ++ a ++ [rangle]) ++ r)
      by (rewrite <- !app_assoc; reflexivity).
    rewrite firstn_matched. reflexivity.
  - intros s'. destruct (strip_prefix [rangle] s'); reflexivity.
Qed.

Lemma match_here_tag t r :
  is_sheet_tag t -> match_here Advanced.tag_re (t ++ r) = Some (MatchObj t [], r).
Proof.
  intros (a & -> & Ha). rewrite match_here_tag_re.
  rewrite <- !app_assoc, strip_prefix_app. simpl.
  rewrite break_at_app by assumption. reflexivity.
Qed.

Lemma match_here_tag_inv s m r :
  match_here Advanced.tag_re s = Some (m, r) ->
  exists t, is_sheet_tag t /\ s = t ++ r /\ m = MatchObj t [].
Proof.
  rewrite match_here_tag_re.
  destruct (strip_prefix sheet_open s) as [s1|] eqn:E; [|discriminate].
  destruct (break_at rangle s1) as [[a r']|] eqn:B; [|discriminate].
  intros H. inversion H; subst.
  apply strip_prefix_Some in E. apply break_at_Some in B as [-> Ha].
  exists (sheet_open ++ a ++ [rangle]). split; [now exists a|].
  split; [|reflexivity]. rewrite E, <- !app_assoc. reflexivity.
Qed.

(** The attribute pattern at the front of a text finds what [attr_at]
    describes. *)
Lemma match_here_attr_re key s :
  option_map (fun mr => groups (fst mr)) (match_here (Advanced.attr_re key) s) =
  option_map (fun v => [v]) (attr_at key s).
Proof.
  unfold match_here, attr_at, value_at. rewrite rmatch_attr_re.
  destruct (strip_prefix (attr_open key) s) as [s1|]; [|reflexivity].
  destruct (break_at dquote s1) as [[[|x v] r]|]; reflexivity.
Qed.

Lemma search_attr_re key s :
  option_map group1 (search (Advanced.attr_re key) s) = first_attr key s.
Proof.
  induction s as [|c s IH].
  - cbn [search first_attr].
    pose proof (match_here_attr_re key []) as H.
    destruct (match_here (Advanced.attr_re key) []) as [[m r]|],
             (attr_at key []) as [v|]; simpl in *; try congruence.
    unfold group1. inversion H as [E]. rewrite E. reflexivity.
  - cbn [search first_attr].
    pose proof (match_here_attr_re key (c :: s)) as H.
    destruct (match_here (Advanced.attr_re key) (c :: s)) as [[m r]|],
             (attr_at key (c :: s)) as [v|]; simpl in *; try congruence.
    unfold group1. inversion H as [E]. rewrite E. reflexivity.
Qed.

(** What the loop body of the advanced script computes for a tag. *)
Lemma describe_first_attr tag :
  Advanced.describe tag =
  Advanced.Descriptor
    (match first_attr (lit "name") tag with Some v => v | None => lit "Unknown" end)
    (match first_attr (lit "state") tag with Some v => v | None => lit "visible" end).
Proof.
  unfold Advanced.describe, Advanced.name_re, Advanced.state_re.
  rewrite <- !search_attr_re.
  destruct (search (Advanced.attr_re (lit "name")) tag),
           (search (Advanced.attr_re (lit "state")) tag); reflexivity.
Qed.

(** A match of the simple script's pattern: [<sheet ], bracket-free text,
    the name attribute with a non-empty value. *)
Lemma match_here_sheet_re_inv s m rest :
  match_here Simple.sheet_re s = Some (m, rest) ->
  exists a v,
    s = sheet_open ++ a ++ attr_open (lit "name") ++ v ++ dquote :: rest /\
    ~ In rangle a /\ v <> [] /\ ~ In dquote v /\ groups m = [v].
Proof.
  unfold match_here.
  change Simple.sheet_re
    with (Lit sheet_open · Star (Except rangle) · Advanced.attr_re (lit "name"))%re.
  cbn [rmatch].
  destruct (strip_prefix sheet_open s) as [s1|] eqn:E; [|discriminate].
  apply strip_prefix_Some in E. intros H.
  apply greedy_sound in H as (a & r & -> & Ha & H).
  rewrite rmatch_attr_re in H.
  destruct (strip_prefix (attr_open (lit "name")) r) as [r1|] eqn:E1; [|discriminate].
  destruct (break_at dquote r1) as [[v r2]|] eqn:B; [|discriminate].
  destruct v as [|x v]; [discriminate|].
  inversion H; subst m rest. clear H.
  apply strip_prefix_Some in E1. apply break_at_Some in B as [-> Hv].
  exists a, (x :: v). subst. repeat split; try assumption; try discriminate.
  intros Hin. rewrite forallb_forall in Ha. specialize (Ha _ Hin).
  discriminate Ha.
Qed.

(** ** [findall] with the tag pattern finds the sheet tags *)

Lemma findall_from_skip r x : forall s,
  findall_from r (x ++ s) (length x) = findall_from r s 0.
Proof. induction x as [|c x IH]; intros s; simpl; auto. Qed.

Lemma findall_tag t r :
  is_sheet_tag t ->
  findall Advanced.tag_re (t ++ r) = t :: findall Advanced.tag_re r.
Proof.
  intros Ht. unfold findall.
  assert (Hne : exists c t', t = c :: t').
  { destruct Ht as (a & -> & _). vm_compute. eauto. }
  destruct Hne as (c & t' & ->).
  cbn [findall_from app].
  change (c :: t' ++ r) with ((c :: t') ++ r).
  rewrite (match_here_tag _ r Ht). cbn [findall_item groups whole].
  f_equal. simpl length.
  replace (S (length t') - 1) with (length t') by lia.
  apply findall_from_skip.
Qed.

Lemma findall_miss r c s :
  match_here r (c :: s) = None -> findall r (c :: s) = findall r s.
Proof. unfold findall. simpl. now intros ->. Qed.

Lemma not_tag_start c s :
  (forall t r, is_sheet_tag t -> c :: s <> t ++ r) ->
  match_here Advanced.tag_re (c :: s) = None.
Proof.
  intros H. destruct (match_here Advanced.tag_re (c :: s)) as [[m r]|] eqn:E;
    [|reflexivity].
  apply match_here_tag_inv in E as (t & Ht & Es & _).
  exfalso. exact (H _ _ Ht Es).
Qed.

Lemma sheet_tags_findall s ts :
  sheet_tags s ts -> findall Advanced.tag_re s = ts.
Proof.
  induction 1 as [|t r ts Ht _ IH|c s ts Hn _ IH].
  - reflexivity.
  - rewrite findall_tag by assumption. now rewrite IH.
  - rewrite findall_miss by now apply not_tag_start. exact IH.
Qed.

Lemma findall_sheet_tags s : sheet_tags s (findall Advanced.tag_re s).
Proof.
  remember (length s) as n eqn:Hn.
  revert s Hn. induction n as [n IH] using lt_wf_ind. intros s Hn.
  destruct s as [|c s]; [constructor|].
  destruct (match_here Advanced.tag_re (c :: s)) as [[m r]|] eqn:E.
  - apply match_here_tag_inv in E as (t & Ht & Es & _).
    rewrite Es, findall_tag by assumption.
    constructor; [assumption|].
    apply (IH (length r)); [|reflexivity].
    subst n. rewrite Es, length_app.
    destruct Ht as (a & -> & _). simpl. lia.
  - rewrite findall_miss by assumption.
    apply tags_skip.
    + intros t r Ht Es. rewrite Es, match_here_tag in E by assumption.
      discriminate.
    + apply (IH (length s)); [subst n; simpl; lia | reflexivity].
Qed.

(** Every item [findall] reports comes from a match somewhere in the text. *)
Lemma findall_from_In r g : forall s k,
  In g (findall_from r s k) ->
  exists x s2 m rest,
    s = x ++ s2 /\ match_here r s2 = Some (m, rest) /\ g = findall_item m.
Proof.
  induction s as [|c s IH]; intros k H.
  - destruct k; simpl in H; [|contradiction].
    destruct (match_here r []) as [[m rest]|] eqn:E; [|contradiction].
    destruct H as [<-|[]]. exists [], [], m, rest. auto.
  - destruct k as [|k]; cbn [findall_from] in H.
    + destruct (match_here r (c :: s)) as [[m rest]|] eqn:E.
      * destruct H as [<-|H].
        -- exists [], (c :: s), m, rest. auto.
        -- destruct (IH _ H) as (x & s2 & m' & rest' & -> & Hm & ->).
           exists (c :: x), s2, m', rest'. auto.
      * destruct (IH _ H) as (x & s2 & m' & rest' & -> & Hm & ->).
        exists (c :: x), s2, m', rest'. auto.
    + destruct (IH _ H) as (x & s2 & m' & rest' & -> & Hm & ->).
      exists (c :: x), s2, m', rest'. auto.
Qed.

(** Every name the simple script finds is the value of a name attribute
    that follows [<sheet ] with no closing bracket in between. *)
Lemma simple_findall_In content v :
  In v (findall Simple.sheet_re content) ->
  exists x a y,
    content = x ++ sheet_open ++ a ++ attr_open (lit "name") ++ v ++ dquote :: y /\
    ~ In rangle a /\ v <> [] /\ ~ In dquote v.
Proof.
  intros H. apply findall_from_In in H as (x & s2 & m & rest & -> & Hm & ->).
  apply match_here_sheet_re_inv in Hm as (a & v & -> & Ha & Hv & Hq & Hg).
  unfold findall_item. rewrite Hg. exists x, a, rest. auto.
Qed.

(** ** Running the statements *)

Lemma extend_nil st : extend st [] [] = st.
Proof. destruct st. unfold extend. simpl. now rewrite !app_nil_r. Qed.

Lemma extend_extend st l1 c1 l2 c2 :
  extend (extend st l1 c1) l2 c2 = extend st (l1 ++ l2) (c1 ++ c2).
Proof. unfold extend. simpl. now rewrite !app_assoc. Qed.

Lemma print_run line st : print line st = (Normal tt, extend st [line] []).
Proof. unfold print, extend. now rewrite app_nil_r. Qed.

Lemma log_run c st : log c st = (Normal tt, extend st [] [c]).
Proof. unfold log, extend. now rewrite app_nil_r. Qed.

Lemma for_each_print {A} (f : A -> pystr) xs : forall st,
  for_each xs (fun x => print (f x)) st = (Normal tt, extend st (map f xs) []).
Proof.
  induction xs as [|x xs IH]; intros st; simpl.
  - unfold ret. now rewrite extend_nil.
  - unfold bind. rewrite print_run, IH, extend_extend. reflexivity.
Qed.

Ltac run_statements :=
  unfold zipfile_ZipFile, zip_namelist, zip_read, decode_utf8,
    import_openpyxl_module, openpyxl_load_workbook, os_path_exists, sys_exit,
    lift;
  unfold try_except, bind, ask, raise, ret, print, log, extend;
  cbn [env stdout calls].

Ltac same_state := cbn [env stdout calls]; rewrite <- ?app_assoc; reflexivity.

Lemma zip_reader_run body content_lines path st :
  (forall content st',
      body content st' = (Normal tt, extend st' (content_lines content) [])) ->
  zip_reader body path st =
  (Normal tt,
   extend st (zip_banner :: zip_lines content_lines (env st) path)
             (zip_calls (env st) path)).
Proof.
  intros Hbody.
  unfold zip_reader, zip_lines, zip_calls. run_statements.
  destruct (ZipFile (env st) path) as [e|z]; [same_state|].
  destruct (member_of workbook_xml (namelist z)); [|same_state].
  destruct (getinfo z workbook_xml) as [m|]; [|same_state].
  destruct (payload m) as [e|data]; [same_state|].
  destruct (Utf8.decode data) as [content|]; [|same_state].
  rewrite Hbody. unfold extend. cbn [env stdout calls].
  rewrite app_nil_r, <- ?app_assoc. reflexivity.
Qed.

Lemma simple_inspect_via_zip_run path st :
  Simple.inspect_via_zip path st =
  (Normal tt,
   extend st (zip_banner :: zip_lines simple_content_lines (env st) path)
             (zip_calls (env st) path)).
Proof.
  change (Simple.inspect_via_zip path)
    with (zip_reader
            (fun content =>
               for_each (findall Simple.sheet_re content)
                        (fun sheet => print (Simple.sheet_line sheet))) path).
  apply zip_reader_run. intros content st'. apply for_each_print.
Qed.

Lemma advanced_inspect_via_zip_run path st :
  Advanced.inspect_via_zip path st =
  (Normal tt,
   extend st (zip_banner :: zip_lines advanced_content_lines (env st) path)
             (zip_calls (env st) path)).
Proof.
  change (Advanced.inspect_via_zip path)
    with (zip_reader
            (fun content =>
               for_each (findall Advanced.tag_re content)
                        (fun tag => print (Advanced.sheet_line (Advanced.describe tag))))
            path).
  apply zip_reader_run. intros content st'.
  apply (for_each_print (fun tag => Advanced.sheet_line (Advanced.describe tag))).
Qed.

Lemma inspect_via_openpyxl_run path st :
  Simple.inspect_via_openpyxl path st =
  (Normal (openpyxl_ok (env st) path),
   extend st (openpyxl_lines (env st) path) (openpyxl_calls (env st) path)).
Proof.
  unfold Simple.inspect_via_openpyxl, openpyxl_ok, openpyxl_lines,
    openpyxl_calls, openpyxl_result.
  pose proof (for_each_print Simple.sheet_line) as Hloop.
  run_statements.
  destruct (import_openpyxl (env st)) as [e|].
  - destruct (is_ImportError e); cbn [env stdout calls];
      rewrite ?app_nil_r; reflexivity.
  - cbn [env stdout calls].
    destruct (load_workbook (env st) path) as [e|sheetnames].
    + destruct (is_ImportError e); cbn [env stdout calls];
        rewrite ?app_nil_r, <- ?app_assoc; reflexivity.
    + rewrite Hloop. unfold extend. cbn [env stdout calls].
      rewrite app_nil_r, <- ?app_assoc. reflexivity.
Qed.

Lemma require_file_run path st :
  require_file path st =
  if path_exists (env st) path
  then (Normal tt, extend st [] [call_exists path])
  else (Raised (SystemExit 1),
        extend st [lit "File not found: " ++ path] [call_exists path]).
Proof.
  unfold require_file. run_statements.
  destruct (path_exists (env st) path); cbn [negb env stdout calls];
    rewrite ?app_nil_r; reflexivity.
Qed.

(** A run of the advanced script. *)
Lemma advanced_script_run path st :
  run_script (Advanced.script path) st =
  if path_exists (env st) path
  then (0%Z,
        extend st (zip_banner :: zip_lines advanced_content_lines (env st) path)
                  (call_exists path :: zip_calls (env st) path))
  else (1%Z, extend st [lit "File not found: " ++ path] [call_exists path]).
Proof.
  unfold run_script, Advanced.script, bind. rewrite require_file_run.
  destruct (path_exists (env st) path); [|reflexivity].
  rewrite advanced_inspect_via_zip_run, extend_extend. reflexivity.
Qed.

(** A run of the simple script. *)
Lemma simple_script_run path st :
  run_script (Simple.script path) st =
  if path_exists (env st) path
  then (0%Z,
        if openpyxl_ok (env st) path
        then extend st (openpyxl_lines (env st) path)
                       (call_exists path :: openpyxl_calls (env st) path)
        else extend st (openpyxl_lines (env st) path ++
                        zip_banner :: zip_lines simple_content_lines (env st) path)
                       (call_exists path :: openpyxl_calls (env st) path ++
                        zip_calls (env st) path))
  else (1%Z, extend st [lit "File not found: " ++ path] [call_exists path]).
Proof.
  unfold run_script, Simple.script, bind. rewrite require_file_run.
  destruct (path_exists (env st) path); [|reflexivity].
  rewrite inspect_via_openpyxl_run. cbn [env extend].
  destruct (openpyxl_ok (env st) path); cbn [negb].
  - unfold ret. rewrite extend_extend. reflexivity.
  - rewrite simple_inspect_via_zip_run, !extend_extend. reflexivity.
Qed.

(** ** Substrings and attribute values *)

Lemma occurs_true l s : occurs l s = true <-> exists x y, s = x ++ l ++ y.
Proof.
  split.
  - induction s as [|c s IH]; simpl; intros H.
    + rewrite orb_false_r in H. apply startswith_true in H as [r ->].
      exists [], r. reflexivity.
    + apply orb_true_iff in H as [H|H].
      * apply startswith_true in H as [r ->]. exists [], r. reflexivity.
      * destruct (IH H) as (x & y & ->). exists (c :: x), y. reflexivity.
  - intros (x & y & ->). induction x as [|c x IH]; simpl.
    + destruct (l ++ y) eqn:E; simpl; rewrite <- E, startswith_app; reflexivity.
    + rewrite IH. apply orb_true_r.
Qed.

Lemma occurs_false_startswith l s : occurs l s = false -> startswith s l = false.
Proof. destruct s; simpl; intros H; apply orb_false_iff in H; tauto. Qed.

Lemma occurs_false_tail l c s : occurs l (c :: s) = false -> occurs l s = false.
Proof. simpl. intros H. apply orb_false_iff in H. tauto. Qed.

Lemma strip_prefix_long l : forall u x,
  length l <= length u ->
  strip_prefix l (u ++ x) = option_map (fun r => r ++ x) (strip_prefix l u).
Proof.
  induction l as [|c l IH]; intros u x H; simpl; [reflexivity|].
  destruct u as [|y u]; simpl in *; [lia|].
  destruct (N.eqb y c); [|reflexivity].
  apply IH. lia.
Qed.

Lemma startswith_long l u x :
  length l <= length u -> startswith (u ++ x) l = startswith u l.
Proof.
  intros H. unfold startswith. rewrite strip_prefix_long by assumption.
  destruct (strip_prefix l u); reflexivity.
Qed.

Lemma endswith_true s l : endswith s l = true <-> exists x, s = x ++ l.
Proof.
  unfold endswith. rewrite startswith_true. split.
  - intros [r H]. exists (rev r).
    rewrite <- (rev_involutive s), H, rev_app_distr, rev_involutive. reflexivity.
  - intros [x ->]. exists (rev x). apply rev_app_distr.
Qed.

(** In quote-free text the opening of an attribute can only stand at the
    very end, its double quote being the one that follows the text. *)
Lemma startswith_quoted k : forall u r,
  ~ In dquote u -> ~ In dquote k ->
  startswith (u ++ dquote :: r) (k ++ [dquote]) = true -> u = k.
Proof.
  unfold startswith.
  induction k as [|c k IH]; intros u r Hu Hk; cbn [app strip_prefix].
  - destruct u as [|x u]; [reflexivity|]. cbn [app].
    destruct (N.eqb_spec x dquote) as [->|_]; [|discriminate].
    exfalso. apply Hu. now left.
  - destruct u as [|x u]; cbn [app].
    + destruct (N.eqb_spec dquote c) as [E|_]; [|discriminate].
      exfalso. apply Hk. now left.
    + destruct (N.eqb_spec x c) as [->|_]; [|discriminate].
      intros H. f_equal. apply (IH u r); simpl in *; tauto.
Qed.

Lemma attr_at_value key v r :
  v <> [] -> ~ In dquote v ->
  attr_at key (attr_open key ++ v ++ dquote :: r) = Some v.
Proof.
  intros Hne Hq. unfold attr_at, value_at.
  rewrite strip_prefix_app, break_at_app by assumption.
  destruct v; [contradiction|reflexivity].
Qed.

Lemma attr_at_inv key s v :
  attr_at key s = Some v ->
  exists r, s = attr_open key ++ v ++ dquote :: r /\ v <> [] /\ ~ In dquote v.
Proof.
  unfold attr_at, value_at.
  destruct (strip_prefix (attr_open key) s) as [s1|] eqn:E; [|discriminate].
  destruct (break_at dquote s1) as [[a r]|] eqn:B; [|discriminate].
  destruct a as [|x a]; [discriminate|]. intros H. inversion H; subst v.
  apply strip_prefix_Some in E. apply break_at_Some in B as [-> Hq].
  exists r. split; [assumption|]. split; [discriminate | assumption].
Qed.

Lemma first_attr_here key s v : attr_at key s = Some v -> first_attr key s = Some v.
Proof. intros H. destruct s; simpl; rewrite H; reflexivity. Qed.

Lemma first_attr_skip key c s :
  startswith (c :: s) (attr_open key) = false ->
  first_attr key (c :: s) = first_attr key s.
Proof.
  intros H. cbn [first_attr]. unfold attr_at. unfold startswith in H.
  destruct (strip_prefix (attr_open key) (c :: s)); [discriminate | reflexivity].
Qed.

(** The value of an attribute is found when its opening text does not stand
    anywhere before it. *)
Lemma first_attr_found key v r : forall p,
  occurs (attr_open key) (p ++ key ++ lit "=") = false ->
  v <> [] -> ~ In dquote v ->
  first_attr key (p ++ attr_open key ++ v ++ dquote :: r) = Some v.
Proof.
  induction p as [|c p IH]; intros Ho Hne Hq.
  - apply first_attr_here, attr_at_value; assumption.
  - cbn [app]. rewrite first_attr_skip.
    + apply IH; try assumption. exact (occurs_false_tail _ _ _ Ho).
    + apply occurs_false_startswith in Ho.
      assert (E : c :: p ++ attr_open key ++ v ++ dquote :: r =
                  ((c :: p) ++ key ++ lit "=") ++ [dquote] ++ v ++ dquote :: r).
      { unfold attr_open. cbn [app]. rewrite <- !app_assoc. reflexivity. }
      rewrite E, startswith_long; [exact Ho|].
      unfold attr_open. rewrite !length_app. simpl. lia.
Qed.

(** Quote-free text that does not end in [key=] hides no attribute [key]. *)
Lemma first_attr_through key r : forall u,
  ~ In dquote key -> ~ In dquote u ->
  endswith u (key ++ lit "=") = false ->
  first_attr key (u ++ dquote :: r) = first_attr key (dquote :: r).
Proof.
  intros u Hk. induction u as [|c u IH]; intros Hu He; [reflexivity|].
  cbn [app]. rewrite first_attr_skip.
  - apply IH; [simpl in Hu; tauto|].
    destruct (endswith u (key ++ lit "=")) eqn:E; [|reflexivity].
    apply endswith_true in E as [x ->].
    assert (H : endswith (c :: x ++ key ++ lit "=") (key ++ lit "=") = true)
      by (apply endswith_true; now exists (c :: x)).
    congruence.
  - destruct (startswith (c :: u ++ dquote :: r) (attr_open key)) eqn:E;
      [|reflexivity].
    unfold attr_open in E. rewrite app_assoc in E.
    change (c :: u ++ dquote :: r) with ((c :: u) ++ dquote :: r) in E.
    apply startswith_quoted in E; [|assumption|].
    + assert (H : endswith (c :: u) (key ++ lit "=") = true)
        by (apply endswith_true; exists []; now rewrite E).
      congruence.
    + intros Hin. apply in_app_or in Hin as [Hin|Hin]; [auto|].
      simpl in Hin. destruct Hin as [Hin|[]]. discriminate Hin.
Qed.

Lemma has_attr_first_attr key tag :
  has_attr key tag <-> first_attr key tag <> None.
Proof.
  split.
  - intros (p & v & r & -> & Hne & Hq).
    induction p as [|c p IH]; simpl.
    + rewrite (first_attr_here _ _ _ (attr_at_value key v r Hne Hq)). discriminate.
    + destruct (attr_at key (c :: p ++ attr_open key ++ v ++ dquote :: r));
        [discriminate | exact IH].
  - induction tag as [|c tag IH]; simpl.
    + destruct (attr_at key []) as [v|] eqn:E; [|congruence].
      intros _. apply attr_at_inv in E as (r & E & Hne & Hq).
      exists [], v, r. auto.
    + destruct (attr_at key (c :: tag)) as [v|] eqn:E.
      * intros _. apply attr_at_inv in E as (r & E & Hne & Hq).
        exists [], v, r. auto.
      * intros H. destruct (IH H) as (p & v & r & -> & Hne & Hq).
        exists (c :: p), v, r. auto.
Qed.

(** ** Archives and output *)

Lemma getinfo_member z name m :
  getinfo z name = Some m -> member_of name (namelist z) = true.
Proof.
  unfold getinfo. intros H. apply find_some in H as [Hin E].
  apply pystr_eqb_eq in E. apply member_of_In. subst name.
  unfold namelist. apply in_map. now apply in_rev.
Qed.

(** What the reader prints for an archive that opens and whose workbook
    part reads and decodes. *)
Lemma zip_lines_content content_lines w path z m data content :
  ZipFile w path = inr z ->
  getinfo z workbook_xml = Some m ->
  payload m = inr data ->
  Utf8.decode data = Some content ->
  zip_lines content_lines w path = content_lines content.
Proof.
  intros Hz Hm Hp Hd. unfold zip_lines.
  rewrite Hz, (getinfo_member _ _ _ Hm), Hm, Hp, Hd. reflexivity.
Qed.

Lemma simple_output path w :
  output_of (Simple.inspect_via_zip path) w =
  zip_banner :: zip_lines simple_content_lines w path.
Proof. unfold output_of. rewrite simple_inspect_via_zip_run. reflexivity. Qed.

Lemma advanced_output path w :
  output_of (Advanced.inspect_via_zip path) w =
  zip_banner :: zip_lines advanced_content_lines w path.
Proof. unfold output_of. rewrite advanced_inspect_via_zip_run. reflexivity. Qed.

Lemma sheet_lines_all (f : pystr -> pystr) xs :
  (forall x, is_sheet_line (f x) = true) ->
  sheet_lines (map f xs) = map f xs.
Proof.
  intros H. unfold sheet_lines. induction xs as [|x xs IH]; simpl;
    [reflexivity|]. rewrite H, IH. reflexivity.
Qed.

Lemma simple_sheet_line_is sheet : is_sheet_line (Simple.sheet_line sheet) = true.
Proof. reflexivity. Qed.

Lemma advanced_sheet_line_is d : is_sheet_line (Advanced.sheet_line d) = true.
Proof. reflexivity. Qed.

(** ** The two paths of the simple script *)

Example simple_with_openpyxl :
  run_script Simple.main
    (initial (world_with_openpyxl file_path [lit "Sheet1"; lit "Data"])) =
  (0%Z,
   State (world_with_openpyxl file_path [lit "Sheet1"; lit "Data"])
         [lit "Method: openpyxl"; lit "Sheet: Sheet1"; lit "Sheet: Data"]
         [call_exists file_path; call_import_openpyxl;
          call_load_workbook file_path]).
Proof. reflexivity. Qed.

Example simple_without_openpyxl :
  run_script Simple.main
    (initial (example_world (xml "<sheet name='Sheet1' sheetId='1'/>"))) =
  (0%Z,
   State (example_world (xml "<sheet name='Sheet1' sheetId='1'/>"))
         [lit "Method: zipfile (fallback)"; lit "Sheet: Sheet1"]
         [call_exists file_path; call_import_openpyxl; call_ZipFile file_path;
          call_namelist; call_open workbook_xml; call_decode]).
Proof. vm_compute. reflexivity. Qed.

(** * The claims *)

(** ** The existence check and the exit status *)

(** C3. For every path that does not exist, the scripts print the line
    [File not found: <path>] and end with exit status 1 without doing
    anything else: that line is the whole output, and the existence test is
    the only library call, so neither reader has run. *)
Theorem missing_file_exits_1 path w :
  path_exists w path = false ->
  run_script (Simple.script path) (initial w) =
    (1%Z, State w [lit "File not found: " ++ path] [call_exists path]) /\
  run_script (Advanced.script path) (initial w) =
    (1%Z, State w [lit "File not found: " ++ path] [call_exists path]).
Proof.
  intros H. rewrite simple_script_run, advanced_script_run.
  cbn [initial env]. rewrite H. split; reflexivity.
Qed.

Lemma missing_file_exits_1_witness :
  run_script Simple.main (initial empty_world) =
    (1%Z, State empty_world [lit "File not found: App Database.xlsx"]
                [call_exists file_path]) /\
  run_script Advanced.main (initial empty_world) =
    (1%Z, State empty_world [lit "File not found: App Database.xlsx"]
                [call_exists file_path]).
Proof. apply (missing_file_exits_1 file_path empty_world). reflexivity. Defined.

(** C6. When the file exists the exit status is 0, whatever happens while
    the archive is read: status 1 is that of the missing file alone.  In
    particular an archive that fails to open is reported on standard output
    and the script still ends with status 0. *)
Theorem exit_status_by_existence path w :
  fst (run_script (Simple.script path) (initial w)) =
    (if path_exists w path then 0 else 1)%Z /\
  fst (run_script (Advanced.script path) (initial w)) =
    (if path_exists w path then 0 else 1)%Z /\
  (forall e,
      path_exists w path = true -> ZipFile w path = inl e ->
      run_script (Advanced.script path) (initial w) =
        (0%Z, State w [lit "Method: zipfile (fallback)";
                       lit "zipfile error: " ++ exn_str e]
                      [call_exists path; call_ZipFile path])).
Proof.
  rewrite simple_script_run, advanced_script_run. cbn [initial env].
  destruct (path_exists w path); repeat split; try discriminate.
  intros e _ He. unfold zip_lines, zip_calls. rewrite He. reflexivity.
Qed.

Lemma exit_status_by_existence_witness :
  run_script Advanced.main (initial (world_not_a_zip file_path)) =
    (0%Z, State (world_not_a_zip file_path)
                [lit "Method: zipfile (fallback)";
                 lit "zipfile error: File is not a zip file"]
                [call_exists file_path; call_ZipFile file_path]).
Proof.
  apply (proj2 (proj2 (exit_status_by_existence file_path
                         (world_not_a_zip file_path)))
           (Exn BadZipFile (lit "File is not a zip file")));
    reflexivity.
Defined.

(** ** The archive without a workbook part *)

(** C4, as the code has it.  For every archive that opens and has no member
    [xl/workbook.xml], the reader prints its banner
    [Method: zipfile (fallback)] and then the single line
    [Error: xl/workbook.xml not found in zip.]; no line reports a sheet. *)
Theorem missing_member_output path w z :
  ZipFile w path = inr z ->
  ~ In workbook_xml (namelist z) ->
  output_of (Simple.inspect_via_zip path) w =
    [lit "Method: zipfile (fallback)";
     lit "Error: xl/workbook.xml not found in zip."] /\
  output_of (Advanced.inspect_via_zip path) w =
    [lit "Method: zipfile (fallback)";
     lit "Error: xl/workbook.xml not found in zip."] /\
  sheet_lines (output_of (Simple.inspect_via_zip path) w) = [] /\
  sheet_lines (output_of (Advanced.inspect_via_zip path) w) = [].
Proof.
  intros Hz Hn. rewrite simple_output, advanced_output. unfold zip_lines.
  rewrite Hz.
  destruct (member_of workbook_xml (namelist z)) eqn:E.
  - apply member_of_In in E. contradiction.
  - repeat split; reflexivity.
Qed.

Lemma missing_member_output_witness :
  output_of (Simple.inspect_via_zip file_path)
            (world_with file_path archive_without_workbook) =
    [lit "Method: zipfile (fallback)";
     lit "Error: xl/workbook.xml not found in zip."] /\
  output_of (Advanced.inspect_via_zip file_path)
            (world_with file_path archive_without_workbook) =
    [lit "Method: zipfile (fallback)";
     lit "Error: xl/workbook.xml not found in zip."] /\
  sheet_lines (output_of (Simple.inspect_via_zip file_path)
                 (world_with file_path archive_without_workbook)) = [] /\
  sheet_lines (output_of (Advanced.inspect_via_zip file_path)
                 (world_with file_path archive_without_workbook)) = [].
Proof.
  apply (missing_member_output file_path
           (world_with file_path archive_without_workbook)
           archive_without_workbook).
  - reflexivity.
  - vm_compute. intuition discriminate.
Defined.

(** C4 as stated fails: the output of the reader is not the error line
    alone, the banner comes first. *)
Lemma missing_member_output_is_not_one_line :
  ~ In workbook_xml (namelist archive_without_workbook) /\
  output_of (Simple.inspect_via_zip file_path)
            (world_with file_path archive_without_workbook)
    <> [lit "Error: xl/workbook.xml not found in zip."] /\
  output_of (Advanced.inspect_via_zip file_path)
            (world_with file_path archive_without_workbook)
    <> [lit "Error: xl/workbook.xml not found in zip."].
Proof.
  split; [vm_compute; intuition discriminate|].
  split; vm_compute; discriminate.
Qed.

(** ** Undecodable workbook text *)

(** C5, as the code has it.  When the bytes of [xl/workbook.xml] are not
    UTF-8, the [UnicodeDecodeError] is caught by the reader's handler: the
    reader prints [zipfile error: ] with the message of the exception and
    returns normally, and nothing propagates. *)
Theorem decode_error_is_reported path w z m data :
  ZipFile w path = inr z ->
  getinfo z workbook_xml = Some m ->
  payload m = inr data ->
  Utf8.decode data = None ->
  Simple.inspect_via_zip path (initial w) =
    (Normal tt,
     State w [lit "Method: zipfile (fallback)";
              lit "zipfile error: " ++ decode_error_str w data]
             [call_ZipFile path; call_namelist; call_open workbook_xml;
              call_decode]) /\
  Advanced.inspect_via_zip path (initial w) =
    (Normal tt,
     State w [lit "Method: zipfile (fallback)";
              lit "zipfile error: " ++ decode_error_str w data]
             [call_ZipFile path; call_namelist; call_open workbook_xml;
              call_decode]).
Proof.
  intros Hz Hm Hp Hd.
  rewrite simple_inspect_via_zip_run, advanced_inspect_via_zip_run.
  unfold zip_lines, zip_calls. cbn [initial env].
  rewrite Hz, (getinfo_member _ _ _ Hm), Hm, Hp, Hd. split; reflexivity.
Qed.

Lemma decode_error_is_reported_witness :
  Simple.inspect_via_zip file_path
    (initial (world_with file_path undecodable_archive)) =
    (Normal tt,
     State (world_with file_path undecodable_archive)
           [lit "Method: zipfile (fallback)";
            lit "zipfile error: 'utf-8' codec can't decode bytes"]
           [call_ZipFile file_path; call_namelist; call_open workbook_xml;
            call_decode]) /\
  Advanced.inspect_via_zip file_path
    (initial (world_with file_path undecodable_archive)) =
    (Normal tt,
     State (world_with file_path undecodable_archive)
           [lit "Method: zipfile (fallback)";
            lit "zipfile error: 'utf-8' codec can't decode bytes"]
           [call_ZipFile file_path; call_namelist; call_open workbook_xml;
            call_decode]).
Proof.
  apply (decode_error_is_reported file_path
           (world_with file_path undecodable_archive)
           undecodable_archive
           (ZipMember workbook_xml (inr [xff])) [xff]); reflexivity.
Defined.

(** C5 as stated fails: on an archive whose workbook part does not decode
    the reader does not end with an exception, it returns normally, and the
    script ends with status 0. *)
Lemma decode_error_does_not_propagate :
  Utf8.decode [xff] = None /\
  getinfo undecodable_archive workbook_xml =
    Some (ZipMember workbook_xml (inr [xff])) /\
  fst (Simple.inspect_via_zip file_path
         (initial (world_with file_path undecodable_archive))) = Normal tt /\
  fst (Advanced.inspect_via_zip file_path
         (initial (world_with file_path undecodable_archive))) = Normal tt /\
  fst (run_script Advanced.main
         (initial (world_with file_path undecodable_archive))) = 0%Z.
Proof. repeat split; vm_compute; reflexivity. Qed.

(** ** Name and state of a tag *)

(** C10, as the code has it.  Name and state are the values at the first
    place in the tag where [name=Qvalue Q] and [state=Qvalue Q] stand, Q the
    double quote, also when that place is the tail of a longer attribute
    name; the comparison is by exact characters, so [codename] hides the
    name and [codeName] does not. *)
Theorem values_from_first_occurrence :
  (forall tag,
      Advanced.describe tag =
      Advanced.Descriptor
        (match first_attr (lit "name") tag with
         | Some v => v
         | None => lit "Unknown"
         end)
        (match first_attr (lit "state") tag with
         | Some v => v
         | None => lit "visible"
         end)) /\
  Advanced.describe (xml "<sheet codename='X' name='Y'/>") =
    Advanced.Descriptor (lit "X") (lit "visible") /\
  output_of (Advanced.inspect_via_zip file_path)
    (example_world (xml "<sheet codename='X' name='Y'/>")) =
    [lit "Method: zipfile (fallback)"; lit "Sheet: X (State: visible)"] /\
  Advanced.describe (xml "<sheet name='Y' laststate='old' state='hidden'/>") =
    Advanced.Descriptor (lit "Y") (lit "old").
Proof.
  split; [exact describe_first_attr|].
  repeat split; vm_compute; reflexivity.
Qed.

(** C10 as stated fails on its own example: in
    [<sheet codeName=QXQ name=QYQ/>] the text [name=Q] does not stand inside
    [codeName=Q], whose N is a capital, and the printed name is Y. *)
Lemma codeName_does_not_hide_the_name :
  Advanced.describe (xml "<sheet codeName='X' name='Y'/>") =
    Advanced.Descriptor (lit "Y") (lit "visible") /\
  Advanced.name (Advanced.describe (xml "<sheet codeName='X' name='Y'/>"))
    <> lit "X" /\
  output_of (Advanced.inspect_via_zip file_path)
    (example_world (xml "<sheet codeName='X' name='Y'/>")) =
    [lit "Method: zipfile (fallback)"; lit "Sheet: Y (State: visible)"].
Proof. repeat split; vm_compute; solve [reflexivity | discriminate]. Qed.

(** ** Tags without a name *)

(** Text free of a character, followed by that character, begins with
    every prefix of the whole that is free of it too. *)
Lemma prefix_before (c : char) : forall (p u y z : pystr),
  ~ In c u -> ~ In c p -> u ++ c :: y = p ++ z -> exists w, u = p ++ w.
Proof.
  induction p as [|x p IH]; intros u y z Hu Hp E.
  - exists u. reflexivity.
  - destruct u as [|x' u]; simpl in E.
    + inversion E; subst. exfalso. apply Hp. now left.
    + inversion E; subst.
      destruct (IH u y z) as [w ->]; simpl in *; try tauto.
      exists w. reflexivity.
Qed.

(** The simple script's pattern matches nowhere in a tag in which the text
    [name=Q] does not stand: not at its start and not further in, whatever
    follows the tag. *)
Lemma simple_no_match_in_tag tag t1 t2 rest :
  is_sheet_tag tag ->
  occurs (attr_open (lit "name")) tag = false ->
  tag = t1 ++ t2 -> t2 <> [] ->
  match_here Simple.sheet_re (t2 ++ rest) = None.
Proof.
  intros (a0 & Etag & Ha0) Ho E Hne.
  destruct (match_here Simple.sheet_re (t2 ++ rest)) as [[m rest']|] eqn:M;
    [|reflexivity].
  exfalso.
  apply match_here_sheet_re_inv in M as (a & v & Es & Ha & _).
  destruct (exists_last Hne) as (u & x & ->).
  assert (Ex : t1 ++ u = sheet_open ++ a0 /\ x = rangle).
  { apply app_inj_tail. rewrite <- !app_assoc. rewrite <- E, Etag.
    reflexivity. }
  destruct Ex as [Eu ->].
  assert (Hu : ~ In rangle u).
  { intros Hin.
    assert (H : In rangle (sheet_open ++ a0))
      by (rewrite <- Eu; apply in_or_app; now right).
    apply in_app_or in H as [H|H]; [|auto].
    vm_compute in H. intuition discriminate. }
  rewrite <- app_assoc in Es. cbn [app] in Es.
  assert (Hp : ~ In rangle (sheet_open ++ a ++ attr_open (lit "name"))).
  { intros H. apply in_app_or in H as [H|H].
    - vm_compute in H. intuition discriminate.
    - apply in_app_or in H as [H|H]; [auto|].
      vm_compute in H. intuition discriminate. }
  replace (sheet_open ++ a ++ attr_open (lit "name") ++ v ++ dquote :: rest')
    with ((sheet_open ++ a ++ attr_open (lit "name")) ++ v ++ dquote :: rest')
    in Es by (rewrite <- !app_assoc; reflexivity).
  destruct (prefix_before rangle _ u rest _ Hu Hp Es) as [w Ew].
  assert (Ht : occurs (attr_open (lit "name")) tag = true).
  { apply occurs_true.
    exists (t1 ++ sheet_open ++ a), (w ++ [rangle]).
    rewrite E, Ew, <- !app_assoc. reflexivity. }
  congruence.
Qed.

(** C9, as the code has it.  The [Unknown] name is reachable in the
    advanced script: for every sheet tag of the workbook text that has no
    name attribute it prints [Sheet: Unknown (State: s)], where [s] is the
    state found in the tag, [visible] when the tag has no state attribute.
    The simple script's pattern matches nowhere in such a tag when the text
    [name=Q] does not stand in it at all, Q the double quote, so it prints
    no line for the tag; for the workbook text [<sheet sheetId=Q1Q/>] the
    advanced script reports one sheet and the simple script none. *)
Theorem unknown_name_is_reachable :
  (forall path w z m data content tags tag,
      ZipFile w path = inr z ->
      getinfo z workbook_xml = Some m ->
      payload m = inr data ->
      Utf8.decode data = Some content ->
      sheet_tags content tags ->
      In tag tags ->
      ~ has_attr (lit "name") tag ->
      In (lit "Sheet: Unknown (State: " ++
          Advanced.state (Advanced.describe tag) ++ lit ")")
         (output_of (Advanced.inspect_via_zip path) w) /\
      (~ has_attr (lit "state") tag ->
       In (lit "Sheet: Unknown (State: visible)")
          (output_of (Advanced.inspect_via_zip path) w))) /\
  (forall tag t1 t2 rest,
      is_sheet_tag tag ->
      occurs (attr_open (lit "name")) tag = false ->
      tag = t1 ++ t2 -> t2 <> [] ->
      match_here Simple.sheet_re (t2 ++ rest) = None) /\
  (let w := example_world (xml "<sheet sheetId='1'/>") in
   sheet_lines (output_of (Advanced.inspect_via_zip file_path) w) =
     [lit "Sheet: Unknown (State: visible)"] /\
   sheet_lines (output_of (Simple.inspect_via_zip file_path) w) = []).
Proof.
  split; [|split].
  - intros path w z m data content tags tag Hz Hm Hp Hd Ht Hin Hno.
    rewrite advanced_output.
    rewrite (zip_lines_content _ w path z m data content) by assumption.
    unfold advanced_content_lines. rewrite (sheet_tags_findall _ _ Ht).
    assert (Hname : Advanced.name (Advanced.describe tag) = lit "Unknown").
    { rewrite describe_first_attr. cbn [Advanced.name].
      destruct (first_attr (lit "name") tag) eqn:E; [|reflexivity].
      exfalso. apply Hno. apply has_attr_first_attr. congruence. }
    assert (Hline : In (lit "Sheet: Unknown (State: " ++
                        Advanced.state (Advanced.describe tag) ++ lit ")")
                       (zip_banner ::
                        map (fun t => Advanced.sheet_line (Advanced.describe t))
                            tags)).
    { right.
      replace (lit "Sheet: Unknown (State: " ++
               Advanced.state (Advanced.describe tag) ++ lit ")")
        with (Advanced.sheet_line (Advanced.describe tag))
        by (unfold Advanced.sheet_line; rewrite Hname; reflexivity).
      apply (in_map (fun t => Advanced.sheet_line (Advanced.describe t))).
      assumption. }
    split; [exact Hline|].
    intros Hst.
    assert (Hstate : Advanced.state (Advanced.describe tag) = lit "visible").
    { rewrite describe_first_attr. cbn [Advanced.state].
      destruct (first_attr (lit "state") tag) eqn:E; [|reflexivity].
      exfalso. apply Hst. apply has_attr_first_attr. congruence. }
    rewrite Hstate in Hline. exact Hline.
  - exact simple_no_match_in_tag.
  - cbv zeta. split; vm_compute; reflexivity.
Qed.

Lemma unknown_name_is_reachable_witness :
  In (lit "Sheet: Unknown (State: visible)")
     (output_of (Advanced.inspect_via_zip file_path)
        (example_world (xml "<sheets><sheet sheetId='7'/></sheets>"))) /\
  match_here Simple.sheet_re (xml "<sheet sheetId='7'/></sheets>") = None.
Proof.
  pose proof unknown_name_is_reachable as (Hadv & Hsimple & _).
  split.
  - refine (proj2
              (Hadv file_path
                 (example_world (xml "<sheets><sheet sheetId='7'/></sheets>"))
                 (workbook_archive (xml "<sheets><sheet sheetId='7'/></sheets>"))
                 (ZipMember workbook_xml
                    (inr (ascii_bytes (xml "<sheets><sheet sheetId='7'/></sheets>"))))
                 (ascii_bytes (xml "<sheets><sheet sheetId='7'/></sheets>"))
                 (xml "<sheets><sheet sheetId='7'/></sheets>")
                 [xml "<sheet sheetId='7'/>"]
                 (xml "<sheet sheetId='7'/>")
                 _ _ _ _ _ _ _) _).
    + reflexivity.
    + vm_compute. reflexivity.
    + reflexivity.
    + vm_compute. reflexivity.
    + exact (findall_sheet_tags (xml "<sheets><sheet sheetId='7'/></sheets>")).
    + left. reflexivity.
    + intros H. apply has_attr_first_attr in H. apply H.
      vm_compute. reflexivity.
    + intros H. apply has_attr_first_attr in H. apply H.
      vm_compute. reflexivity.
  - apply (Hsimple (xml "<sheet sheetId='7'/>") []
                   (xml "<sheet sheetId='7'/>") (lit "</sheets>")).
    + exists (xml "sheetId='7'/"). split.
      * reflexivity.
      * vm_compute. intuition discriminate.
    + reflexivity.
    + reflexivity.
    + discriminate.
Defined.

(** C9 as stated fails twice on the workbook text
    [<sheet state=QhiddenQ name=Qa>bQ/>], Q the double quote.  Its sheet tag
    ends at the bracket inside the value and has no name attribute; the
    advanced script prints [Sheet: Unknown (State: hidden)], not the line
    with [visible], and the simple script, whose value may run over the
    bracket, does print a line for it. *)
Lemma nameless_tag_with_state_and_open_name :
  let content := xml "<sheet state='hidden' name='a>b'/>" in
  let tag := xml "<sheet state='hidden' name='a>" in
  findall Advanced.tag_re content = [tag] /\
  ~ has_attr (lit "name") tag /\
  output_of (Advanced.inspect_via_zip file_path) (example_world content) =
    [lit "Method: zipfile (fallback)"; lit "Sheet: Unknown (State: hidden)"] /\
  ~ In (lit "Sheet: Unknown (State: visible)")
       (output_of (Advanced.inspect_via_zip file_path) (example_world content)) /\
  output_of (Simple.inspect_via_zip file_path) (example_world content) =
    [lit "Method: zipfile (fallback)"; lit "Sheet: a>b"].
Proof.
  cbv zeta. split; [vm_compute; reflexivity|].
  split.
  { intros H. apply has_attr_first_attr in H. apply H. vm_compute. reflexivity. }
  split; [vm_compute; reflexivity|].
  split; [|vm_compute; reflexivity].
  vm_compute. intuition discriminate.
Qed.

(** * Further properties of the scripts *)

(** ** Greedy repetition *)

Lemma except_all c a : forallb (cset_mem (Except c)) a = true <-> ~ In c a.
Proof.
  rewrite forallb_forall. split.
  - intros H Hin. specialize (H _ Hin). simpl in H.
    now rewrite N.eqb_refl in H.
  - intros H x Hx. simpl. destruct (N.eqb_spec x c); [now subst | reflexivity].
Qed.

Lemma bracket_free_In s : bracket_free s = true <-> ~ In rangle s.
Proof. exact (except_all rangle s). Qed.

(** What a greedy run returns: the result of the longest run of the class
    behind which the rest of the pattern matches; nothing when no run has
    such a rest. *)
Lemma greedy_spec (R : Type) p (k : pystr -> option R) : forall s,
  match greedy p s k with
  | Some x =>
      exists a r,
        s = a ++ r /\ forallb (cset_mem p) a = true /\ k r = Some x /\
        (forall a' r',
            s = a' ++ r' -> forallb (cset_mem p) a' = true ->
            length a < length a' -> k r' = None)
  | None =>
      forall a' r',
        s = a' ++ r' -> forallb (cset_mem p) a' = true -> k r' = None
  end.
Proof.
  induction s as [|c s IH].
  - simpl. destruct (k []) as [x|] eqn:E.
    + exists [], []. repeat split; auto.
      intros a' r' H _ Hlt. destruct a'; [simpl in Hlt; lia | discriminate].
    + intros a' r' H _. destruct a'; [|discriminate].
      simpl in H. now subst.
  - simpl. destruct (cset_mem p c) eqn:Hc.
    + destruct (greedy p s k) as [y|] eqn:G.
      * destruct IH as (a & r & -> & Ha & Hr & Hmax).
        exists (c :: a), r. simpl. rewrite Hc, Ha. repeat split; auto.
        intros a' r' E Ha' Hlt. destruct a' as [|c' a']; [simpl in Hlt; lia|].
        inversion E; subst. simpl in Ha'. apply andb_true_iff in Ha' as [_ Ha'].
        apply (Hmax a' r'); auto. simpl in Hlt. lia.
      * destruct (k (c :: s)) as [x|] eqn:E.
        -- exists [], (c :: s). repeat split; auto.
           intros a' r' E' Ha' Hlt. destruct a' as [|c' a']; [simpl in Hlt; lia|].
           inversion E'; subst. simpl in Ha'.
           apply andb_true_iff in Ha' as [_ Ha']. apply (IH a' r'); auto.
        -- intros a' r' E' Ha'. destruct a' as [|c' a'].
           ++ simpl in E'. now subst.
           ++ inversion E'; subst. simpl in Ha'.
              apply andb_true_iff in Ha' as [_ Ha']. apply (IH a' r'); auto.
    + destruct (k (c :: s)) as [x|] eqn:E.
      * exists [], (c :: s). repeat split; auto.
        intros a' r' E' Ha' Hlt. destruct a' as [|c' a']; [simpl in Hlt; lia|].
        inversion E'; subst. simpl in Ha'. rewrite Hc in Ha'. discriminate.
      * intros a' r' E' Ha'. destruct a' as [|c' a'].
        -- simpl in E'. now subst.
        -- inversion E'; subst. simpl in Ha'. rewrite Hc in Ha'. discriminate.
Qed.

(** The simple script's pattern in terms of the attribute pattern. *)
Lemma match_here_sheet_re s :
  match_here Simple.sheet_re s =
  match strip_prefix sheet_open s with
  | Some s1 =>
      greedy (Except rangle) s1
        (fun s2 =>
           rmatch (Advanced.attr_re (lit "name")) s2 []
             (fun rest caps =>
                Some (MatchObj (firstn (length s - length rest) s) caps, rest)))
  | None => None
  end.
Proof. reflexivity. Qed.

(** X7.  The simple script's pattern matches at a place exactly when the
    text there reads [<sheet ], text without a closing bracket, [name=Q], a
    value that is not empty and has no double quote, and a double quote (Q
    the double quote); and of all such readings it takes the one with the
    longest text before the name, that is, the last name attribute that can
    be read before the first closing bracket. *)
Theorem simple_pattern_takes_last_name :
  (forall a v rest,
      ~ In rangle a -> v <> [] -> ~ In dquote v ->
      match_here Simple.sheet_re
        (sheet_open ++ a ++ attr_open (lit "name") ++ v ++ dquote :: rest)
        <> None) /\
  (forall s m rest,
      match_here Simple.sheet_re s = Some (m, rest) ->
      exists a v,
        s = sheet_open ++ a ++ attr_open (lit "name") ++ v ++ dquote :: rest /\
        ~ In rangle a /\ v <> [] /\ ~ In dquote v /\ findall_item m = v /\
        (forall a' v' rest',
            s = sheet_open ++ a' ++ attr_open (lit "name") ++ v' ++
                dquote :: rest' ->
            ~ In rangle a' -> v' <> [] -> ~ In dquote v' ->
            length a' <= length a)).
Proof.
  split.
  - intros a v rest Ha Hv Hq. rewrite match_here_sheet_re, strip_prefix_app.
    match goal with |- greedy ?p ?s ?k <> None =>
      pose proof (greedy_spec _ p k s) as G; destruct (greedy p s k) as [x|]
    end; [discriminate|].
    specialize (G a _ eq_refl (proj2 (except_all _ _) Ha)).
    rewrite rmatch_attr_re, strip_prefix_app, break_at_app in G by assumption.
    destruct v; [contradiction | discriminate].
  - intros s m rest H. rewrite match_here_sheet_re in H.
    destruct (strip_prefix sheet_open s) as [s1|] eqn:E; [|discriminate].
    apply strip_prefix_Some in E. subst s.
    match type of H with greedy ?p ?s ?k = _ =>
      pose proof (greedy_spec _ p k s) as G; rewrite H in G
    end.
    destruct G as (a & r & -> & Ha & Hr & Hmax).
    rewrite rmatch_attr_re in Hr.
    destruct (strip_prefix (attr_open (lit "name")) r) as [r1|] eqn:E1;
      [|discriminate].
    destruct (break_at dquote r1) as [[v r2]|] eqn:B; [|discriminate].
    destruct v as [|x v]; [discriminate|].
    inversion Hr; subst m rest. clear Hr.
    apply strip_prefix_Some in E1. apply break_at_Some in B as [-> Hv].
    subst r. exists a, (x :: v).
    split; [reflexivity|]. split; [now apply except_all|].
    split; [discriminate|]. split; [assumption|]. split; [reflexivity|].
    intros a' v' rest' E' Ha' Hv' Hq'.
    apply app_inv_head in E'.
    destruct (Nat.le_gt_cases (length a') (length a)) as [Hle|Hgt];
      [assumption|].
    exfalso.
    specialize (Hmax a' _ E' (proj2 (except_all _ _) Ha') Hgt).
    rewrite rmatch_attr_re, strip_prefix_app, break_at_app in Hmax by assumption.
    destruct v'; [contradiction | discriminate].
Qed.

Lemma simple_pattern_takes_last_name_witness :
  match_here Simple.sheet_re (xml "<sheet name='A' codename='B'>") <> None /\
  exists a v,
    xml "<sheet name='A' codename='B'>" =
      sheet_open ++ a ++ attr_open (lit "name") ++ v ++ dquote :: lit ">" /\
    ~ In rangle a /\ v <> [] /\ ~ In dquote v /\ v = lit "B" /\
    length (xml "name='A' code") <= length a.
Proof.
  pose proof simple_pattern_takes_last_name as [Hfound Hlast].
  split.
  - apply (Hfound (xml "name='A' code") (lit "B") (lit ">")).
    + vm_compute. intuition discriminate.
    + discriminate.
    + vm_compute. intuition discriminate.
  - destruct (Hlast (xml "<sheet name='A' codename='B'>")
                    (MatchObj (xml "<sheet name='A' codename='B'") [lit "B"])
                    (lit ">"))
      as (a & v & E & Ha & Hv & Hq & Hitem & Hmax).
    + vm_compute. reflexivity.
    + exists a, v. repeat split; try assumption.
      * symmetry. exact Hitem.
      * apply (Hmax (xml "name='A' code") (lit "B") (lit ">")).
        -- vm_compute. reflexivity.
        -- vm_compute. intuition discriminate.
        -- discriminate.
        -- vm_compute. intuition discriminate.
Defined.

(** ** Scanning text around the tags *)

Lemma greedy_prefix_some (R : Type) p (k : pystr -> option R) s x : forall a,
  forallb (cset_mem p) a = true ->
  greedy p s k = Some x -> greedy p (a ++ s) k = Some x.
Proof.
  induction a as [|c a IH]; intros Ha H; [exact H|].
  simpl in *. apply andb_true_iff in Ha as [Hc Ha].
  rewrite Hc, (IH Ha H). reflexivity.
Qed.

(** When the rest of the pattern matches at no later place of [u], the run
    gives back all of [u]. *)
Lemma greedy_stop_at_start (R : Type) p (k : pystr -> option R) r : forall u,
  match r with [] => True | c :: _ => cset_mem p c = false end ->
  (forall u1 u2, u = u1 ++ u2 -> u1 <> [] -> k (u2 ++ r) = None) ->
  greedy p (u ++ r) k = k (u ++ r).
Proof.
  intros u Hr. induction u as [|c u IH]; intros H.
  - simpl. destruct r as [|c r]; [reflexivity|]. simpl. now rewrite Hr.
  - cbn [app greedy].
    rewrite IH by (intros u1 u2 E Hne; apply (H (c :: u1) u2);
                   [now rewrite E | discriminate]).
    rewrite (H [c] u eq_refl) by discriminate.
    destruct (cset_mem p c); reflexivity.
Qed.

Lemma startswith_before c l : forall u r,
  ~ In c l -> startswith (u ++ c :: r) l = true -> startswith u l = true.
Proof.
  unfold startswith.
  induction l as [|x l IH]; intros u r Hl; [reflexivity|].
  destruct u as [|y u]; cbn [app strip_prefix].
  - destruct (N.eqb_spec c x) as [->|_]; [|discriminate].
    exfalso. apply Hl. now left.
  - destruct (N.eqb y x); [|discriminate].
    apply IH. simpl in Hl. tauto.
Qed.

Lemma match_here_needs_open s :
  startswith s sheet_open = false ->
  match_here Simple.sheet_re s = None /\ match_here Advanced.tag_re s = None.
Proof.
  unfold startswith. intros H.
  rewrite match_here_sheet_re, match_here_tag_re.
  destruct (strip_prefix sheet_open s); [discriminate | auto].
Qed.

Lemma findall_skip r s : forall p,
  (forall p1 p2, p = p1 ++ p2 -> p2 <> [] -> match_here r (p2 ++ s) = None) ->
  findall r (p ++ s) = findall r s.
Proof.
  induction p as [|c p IH]; intros H; [reflexivity|].
  cbn [app]. rewrite findall_miss.
  - apply IH. intros p1 p2 E Hne. apply (H (c :: p1) p2); [now rewrite E | assumption].
  - apply (H [] (c :: p)); [reflexivity | discriminate].
Qed.

Lemma findall_match r m0 w s :
  match_here r (w ++ s) = Some (m0, s) -> whole m0 = w -> w <> [] ->
  findall r (w ++ s) = findall_item m0 :: findall r s.
Proof.
  intros Hm Hw Hne. unfold findall.
  destruct w as [|c w]; [contradiction|].
  cbn [findall_from app].
  change (c :: w ++ s) with ((c :: w) ++ s). rewrite Hm.
  f_equal. rewrite Hw. simpl length.
  replace (S (length w) - 1) with (length w) by lia.
  apply findall_from_skip.
Qed.

(** Text in which [<sheet ] does not stand gives no match to either
    pattern. *)
Lemma findall_no_open s :
  occurs sheet_open s = false ->
  findall Simple.sheet_re s = [] /\ findall Advanced.tag_re s = [].
Proof.
  induction s as [|c s IH]; intros H; [split; reflexivity|].
  destruct (match_here_needs_open (c :: s) (occurs_false_startswith _ _ H))
    as [Hs Ht].
  rewrite !findall_miss by assumption.
  apply IH. exact (occurs_false_tail _ _ _ H).
Qed.

Lemma occurs_suffix l x y : occurs l (x ++ y) = false -> occurs l y = false.
Proof.
  intros H. destruct (occurs l y) eqn:E; [|reflexivity].
  apply occurs_true in E as (p & q & ->).
  assert (T : occurs l (x ++ p ++ l ++ q) = true).
  { apply occurs_true. exists (x ++ p), q. now rewrite <- app_assoc. }
  congruence.
Qed.

(** Before a tag: no match starts in text in which [<sheet ] does not
    stand, also not one that runs into the tag. *)
Lemma no_open_before_tag pre tail p1 p2 :
  occurs sheet_open (pre ++ lit "<sheet") = false ->
  pre = p1 ++ p2 -> p2 <> [] ->
  startswith (p2 ++ lit "<sheet" ++ tail) sheet_open = false.
Proof.
  intros Ho -> Hne. rewrite <- app_assoc in Ho. apply occurs_suffix in Ho.
  rewrite app_assoc, startswith_long.
  - destruct p2; [contradiction|]. exact (occurs_false_startswith _ _ Ho).
  - rewrite length_app. destruct p2; [contradiction|].
    change (length sheet_open) with 7. change (length (lit "<sheet")) with 6.
    simpl. lia.
Qed.

(** Inside the name attribute and behind it, the opening of a name
    attribute does not stand again. *)
Lemma attr_open_not_inside v b u1 u2 :
  attr_open (lit "name") ++ v ++ dquote :: b = u1 ++ u2 ->
  u1 <> [] ->
  occurs (attr_open (lit "name")) (v ++ dquote :: b) = false ->
  startswith u2 (attr_open (lit "name")) = false.
Proof.
  intros E Hne Ho.
  destruct (startswith u2 (attr_open (lit "name"))) eqn:S; [|reflexivity].
  exfalso. apply startswith_true in S as [y ->].
  change (attr_open (lit "name"))
    with [110%N; 97%N; 109%N; 101%N; 61%N; dquote] in E.
  cbn [app] in E.
  destruct u1 as [|c1 [|c2 [|c3 [|c4 [|c5 [|c6 u1]]]]]];
    [contradiction | | | | | |]; cbn [app] in E;
    try (inversion E; discriminate).
  inversion E as [[E1 E2 E3 E4 E5 E6 E7]].
  assert (T : occurs (attr_open (lit "name")) (v ++ dquote :: b) = true).
  { apply occurs_true. exists u1, y. exact E7. }
  congruence.
Qed.

(** The simple script's pattern on a plain tag: it reads up to the double
    quote that ends the name. *)
Lemma match_here_plain_tag a v b rest :
  plain_tag_ok a v b ->
  match_here Simple.sheet_re (plain_tag a v b ++ rest) =
  Some (MatchObj (sheet_open ++ a ++ attr_open (lit "name") ++ v ++ [dquote]) [v],
        b ++ rangle :: rest).
Proof.
  intros (Ha & Hv & Hb & Hne & Hq & _ & Hlater).
  apply quote_free_In in Hq.
  assert (E : plain_tag a v b ++ rest =
              sheet_open ++ a ++
              (attr_open (lit "name") ++ v ++ dquote :: b) ++ rangle :: rest).
  { unfold plain_tag. rewrite <- !app_assoc. cbn [app].
    rewrite <- !app_assoc. reflexivity. }
  rewrite E, match_here_sheet_re, strip_prefix_app.
  apply greedy_prefix_some; [exact Ha|].
  rewrite greedy_stop_at_start.
  - rewrite rmatch_attr_re, <- !app_assoc, strip_prefix_app. cbn [app].
    rewrite break_at_app by assumption.
    destruct v as [|x v]; [contradiction|].
    replace (sheet_open ++ a ++ attr_open (lit "name") ++
             (x :: v) ++ dquote :: b ++ rangle :: rest)
      with ((sheet_open ++ a ++ attr_open (lit "name") ++ (x :: v) ++ [dquote]) ++
            b ++ rangle :: rest)
      by (rewrite <- !app_assoc; reflexivity).
    rewrite firstn_matched. reflexivity.
  - reflexivity.
  - intros u1 u2 Eu Hu1. rewrite rmatch_attr_re.
    pose proof (attr_open_not_inside v b u1 u2 Eu Hu1 Hlater) as S.
    destruct (strip_prefix (attr_open (lit "name")) (u2 ++ rangle :: rest))
      as [s1|] eqn:P; [|reflexivity].
    assert (T : startswith (u2 ++ rangle :: rest) (attr_open (lit "name")) = true)
      by (unfold startswith; now rewrite P).
    apply startswith_before in T; [congruence|].
    vm_compute. intuition discriminate.
Qed.

(** Up to a closing bracket, the simple script's pattern starts nowhere in
    text in which [name=Q] does not stand, Q the double quote. *)
Lemma no_simple_match_before_bracket u u1 u2 rest :
  ~ In rangle u ->
  occurs (attr_open (lit "name")) u = false ->
  u ++ [rangle] = u1 ++ u2 -> u2 <> [] ->
  match_here Simple.sheet_re (u2 ++ rest) = None.
Proof.
  intros Hu Ho E Hne.
  destruct (match_here Simple.sheet_re (u2 ++ rest)) as [[m rest']|] eqn:M;
    [|reflexivity].
  exfalso.
  apply match_here_sheet_re_inv in M as (a & v & Es & Ha & _).
  destruct (exists_last Hne) as (w & x & ->).
  assert (Ex : u1 ++ w = u /\ x = rangle).
  { apply app_inj_tail. rewrite <- app_assoc. symmetry. exact E. }
  destruct Ex as [Eu ->].
  assert (Hw : ~ In rangle w).
  { intros Hin. apply Hu. rewrite <- Eu. apply in_or_app. now right. }
  rewrite <- app_assoc in Es. cbn [app] in Es.
  assert (Hp : ~ In rangle (sheet_open ++ a ++ attr_open (lit "name"))).
  { intros H. apply in_app_or in H as [H|H].
    - vm_compute in H. intuition discriminate.
    - apply in_app_or in H as [H|H]; [auto|].
      vm_compute in H. intuition discriminate. }
  replace (sheet_open ++ a ++ attr_open (lit "name") ++ v ++ dquote :: rest')
    with ((sheet_open ++ a ++ attr_open (lit "name")) ++ v ++ dquote :: rest')
    in Es by (rewrite <- !app_assoc; reflexivity).
  destruct (prefix_before rangle _ w rest _ Hw Hp Es) as [w' Ew].
  assert (T : occurs (attr_open (lit "name")) u = true).
  { apply occurs_true. exists (u1 ++ sheet_open ++ a), w'.
    rewrite <- Eu, Ew, <- !app_assoc. reflexivity. }
  congruence.
Qed.

Lemma plain_tag_is_sheet_tag a v b :
  plain_tag_ok a v b -> is_sheet_tag (plain_tag a v b).
Proof.
  intros (Ha & Hv & Hb & _).
  apply bracket_free_In in Ha, Hv, Hb.
  exists (a ++ attr_open (lit "name") ++ v ++ dquote :: b). split.
  - unfold plain_tag. repeat (rewrite <- app_assoc; cbn [app]). reflexivity.
  - intros H. apply in_app_or in H as [H|H]; [auto|].
    apply in_app_or in H as [H|H]; [vm_compute in H; intuition discriminate|].
    apply in_app_or in H as [H|H]; [auto|].
    destruct H as [H|H]; [discriminate H | auto].
Qed.

Lemma plain_tag_name a v b :
  plain_tag_ok a v b ->
  Advanced.name (Advanced.describe (plain_tag a v b)) = v.
Proof.
  intros (_ & _ & _ & Hne & Hq & Hfirst & _).
  apply quote_free_In in Hq.
  rewrite describe_first_attr. cbn [Advanced.name].
  assert (E : plain_tag a v b =
              (sheet_open ++ a) ++ attr_open (lit "name") ++ v ++
              dquote :: b ++ [rangle])
    by (unfold plain_tag; rewrite <- !app_assoc; reflexivity).
  rewrite E, first_attr_found; try assumption. reflexivity.
Qed.

(** On plain workbook text both patterns find the same sheets. *)
Lemma plain_workbook_findall s names :
  plain_workbook s names ->
  findall Simple.sheet_re s = names /\
  map (fun tag => Advanced.name (Advanced.describe tag))
      (findall Advanced.tag_re s) = names.
Proof.
  induction 1 as [s Ho|pre a v b rest names Hpre Hok _ [IHs IHt]].
  - destruct (findall_no_open s Ho) as [-> ->]. split; reflexivity.
  - assert (Hskip : forall p1 p2, pre = p1 ++ p2 -> p2 <> [] ->
              startswith (p2 ++ plain_tag a v b ++ rest) sheet_open = false).
    { intros p1 p2 E Hne.
      exact (no_open_before_tag pre _ p1 p2 Hpre E Hne). }
    split.
    + rewrite findall_skip
        by (intros p1 p2 E Hne;
            apply (match_here_needs_open _ (Hskip p1 p2 E Hne))).
      pose proof (match_here_plain_tag a v b rest Hok) as M.
      assert (E : plain_tag a v b ++ rest =
                  (sheet_open ++ a ++ attr_open (lit "name") ++ v ++ [dquote]) ++
                  (b ++ [rangle]) ++ rest).
      { unfold plain_tag. rewrite <- !app_assoc. cbn [app].
        rewrite <- !app_assoc. reflexivity. }
      rewrite E in M |- *.
      replace (b ++ rangle :: rest) with ((b ++ [rangle]) ++ rest) in M
        by (rewrite <- app_assoc; reflexivity).
      rewrite (findall_match _ _ _ _ M eq_refl) by (vm_compute; discriminate).
      cbn [findall_item groups]. f_equal.
      rewrite findall_skip; [exact IHs|].
      intros p1 p2 Ep Hne.
      destruct Hok as (_ & _ & Hb & _ & _ & _ & Hlater).
      apply bracket_free_In in Hb.
      apply (no_simple_match_before_bracket b p1 p2 rest Hb); try assumption.
      change (v ++ dquote :: b) with (v ++ [dquote] ++ b) in Hlater.
      rewrite app_assoc in Hlater. exact (occurs_suffix _ _ _ Hlater).
    + rewrite findall_skip
        by (intros p1 p2 E Hne;
            apply (match_here_needs_open _ (Hskip p1 p2 E Hne))).
      rewrite findall_tag by (apply plain_tag_is_sheet_tag; assumption).
      cbn [map]. rewrite plain_tag_name by assumption. now rewrite IHt.
Qed.

(** ** The two scripts on the same workbook *)

(** X8.  On plain workbook text, where every sheet tag has one name
    attribute, no closing bracket inside and the text [name=Q] nowhere else
    (Q the double quote), the two scripts report the same sheets in the same
    order: the simple script prints [Sheet: <name>] for each name, and the
    advanced script prints one line per name whose name is that name. *)
Theorem scripts_agree_on_plain_workbooks path w z m data content names :
  ZipFile w path = inr z ->
  getinfo z workbook_xml = Some m ->
  payload m = inr data ->
  Utf8.decode data = Some content ->
  plain_workbook content names ->
  sheet_lines (output_of (Simple.inspect_via_zip path) w) =
    map (fun n => lit "Sheet: " ++ n) names /\
  exists ds,
    sheet_lines (output_of (Advanced.inspect_via_zip path) w) =
      map Advanced.sheet_line ds /\
    map Advanced.name ds = names.
Proof.
  intros Hz Hm Hp Hd Hplain.
  destruct (plain_workbook_findall _ _ Hplain) as [Hs Ht].
  rewrite advanced_output, simple_output.
  rewrite !(zip_lines_content _ w path z m data content) by assumption.
  unfold advanced_content_lines, simple_content_lines. split.
  - change (sheet_lines (zip_banner :: ?l)) with (sheet_lines l).
    rewrite sheet_lines_all by (intros sheet; apply simple_sheet_line_is).
    rewrite Hs. reflexivity.
  - exists (map Advanced.describe (findall Advanced.tag_re content)). split.
    + change (sheet_lines (zip_banner :: ?l)) with (sheet_lines l).
      rewrite (sheet_lines_all
                 (fun tag => Advanced.sheet_line (Advanced.describe tag)))
        by (intros tag; apply advanced_sheet_line_is).
      rewrite map_map. reflexivity.
    + rewrite map_map. exact Ht.
Qed.

Lemma scripts_agree_on_plain_workbooks_witness :
  let content :=
    xml "<workbook><sheets><sheet name='Sheet1' sheetId='1' r:id='rId1'/><sheet state='hidden' name='Data' sheetId='2'/></sheets></workbook>" in
  sheet_lines (output_of (Simple.inspect_via_zip file_path)
                 (example_world content)) =
    map (fun n => lit "Sheet: " ++ n) [lit "Sheet1"; lit "Data"] /\
  exists ds,
    sheet_lines (output_of (Advanced.inspect_via_zip file_path)
                   (example_world content)) =
      map Advanced.sheet_line ds /\
    map Advanced.name ds = [lit "Sheet1"; lit "Data"].
Proof.
  cbv zeta.
  apply (scripts_agree_on_plain_workbooks file_path
           (example_world (xml "<workbook><sheets><sheet name='Sheet1' sheetId='1' r:id='rId1'/><sheet state='hidden' name='Data' sheetId='2'/></sheets></workbook>"))
           (workbook_archive (xml "<workbook><sheets><sheet name='Sheet1' sheetId='1' r:id='rId1'/><sheet state='hidden' name='Data' sheetId='2'/></sheets></workbook>"))
           (ZipMember workbook_xml (inr (ascii_bytes (xml "<workbook><sheets><sheet name='Sheet1' sheetId='1' r:id='rId1'/><sheet state='hidden' name='Data' sheetId='2'/></sheets></workbook>"))))
           (ascii_bytes (xml "<workbook><sheets><sheet name='Sheet1' sheetId='1' r:id='rId1'/><sheet state='hidden' name='Data' sheetId='2'/></sheets></workbook>"))
           (xml "<workbook><sheets><sheet name='Sheet1' sheetId='1' r:id='rId1'/><sheet state='hidden' name='Data' sheetId='2'/></sheets></workbook>")
           [lit "Sheet1"; lit "Data"]).
  - reflexivity.
  - vm_compute. reflexivity.
  - reflexivity.
  - vm_compute. reflexivity.
  - change (plain_workbook
              (xml "<workbook><sheets>" ++
               plain_tag [] (lit "Sheet1") (xml " sheetId='1' r:id='rId1'/") ++
               [] ++
               plain_tag (xml "state='hidden' ") (lit "Data") (xml " sheetId='2'/") ++
               xml "</sheets></workbook>")
              [lit "Sheet1"; lit "Data"]).
    apply plain_sheet.
    + reflexivity.
    + unfold plain_tag_ok. repeat split; solve [reflexivity | discriminate].
    + apply plain_sheet.
      * reflexivity.
      * unfold plain_tag_ok. repeat split; solve [reflexivity | discriminate].
      * apply plain_end. reflexivity.
Defined.

(** X6.  When the text [<sheet ] (with its space) stands nowhere in the
    decoded workbook part, as in an empty part or one whose only tags are
    [<sheets>] or [<sheet/>], either reader prints its banner and nothing
    else: no sheet and no error. *)
Theorem text_without_sheet_tags_prints_banner_only path w z m data content :
  ZipFile w path = inr z ->
  getinfo z workbook_xml = Some m ->
  payload m = inr data ->
  Utf8.decode data = Some content ->
  occurs sheet_open content = false ->
  output_of (Simple.inspect_via_zip path) w = [lit "Method: zipfile (fallback)"] /\
  output_of (Advanced.inspect_via_zip path) w = [lit "Method: zipfile (fallback)"].
Proof.
  intros Hz Hm Hp Hd Ho.
  destruct (findall_no_open content Ho) as [Hs Ht].
  rewrite advanced_output, simple_output.
  rewrite !(zip_lines_content _ w path z m data content) by assumption.
  unfold advanced_content_lines, simple_content_lines.
  rewrite Hs, Ht. split; reflexivity.
Qed.

Lemma text_without_sheet_tags_prints_banner_only_witness :
  output_of (Simple.inspect_via_zip file_path)
    (example_world (xml "<workbook><sheets><sheet/><sheet></sheet></sheets></workbook>")) =
    [lit "Method: zipfile (fallback)"] /\
  output_of (Advanced.inspect_via_zip file_path)
    (example_world (xml "<workbook><sheets><sheet/><sheet></sheet></sheets></workbook>")) =
    [lit "Method: zipfile (fallback)"].
Proof.
  apply (text_without_sheet_tags_prints_banner_only file_path
           (example_world (xml "<workbook><sheets><sheet/><sheet></sheet></sheets></workbook>"))
           (workbook_archive (xml "<workbook><sheets><sheet/><sheet></sheet></sheets></workbook>"))
           (ZipMember workbook_xml (inr (ascii_bytes (xml "<workbook><sheets><sheet/><sheet></sheet></sheets></workbook>"))))
           (ascii_bytes (xml "<workbook><sheets><sheet/><sheet></sheet></sheets></workbook>"))
           (xml "<workbook><sheets><sheet/><sheet></sheet></sheets></workbook>")).
  - reflexivity.
  - vm_compute. reflexivity.
  - reflexivity.
  - vm_compute. reflexivity.
  - reflexivity.
Defined.

(** ** The values of a descriptor *)

Lemma first_attr_inv key v : forall s,
  first_attr key s = Some v ->
  exists p r,
    s = p ++ attr_open key ++ v ++ dquote :: r /\ v <> [] /\ ~ In dquote v.
Proof.
  induction s as [|c s IH]; cbn [first_attr]; intros H.
  - destruct (attr_at key []) as [v'|] eqn:E; [|discriminate].
    inversion H; subst v'. apply attr_at_inv in E as (r & E & Hne & Hq).
    exists [], r. auto.
  - destruct (attr_at key (c :: s)) as [v'|] eqn:E.
    + inversion H; subst v'. apply attr_at_inv in E as (r & E & Hne & Hq).
      exists [], r. auto.
    + destruct (IH H) as (p & r & -> & Hne & Hq).
      exists (c :: p), r. auto.
Qed.

(** In a sheet tag the closing bracket is the last character, so a value
    that a double quote follows has none. *)
Lemma value_before_bracket tag p key v r :
  is_sheet_tag tag ->
  tag = p ++ attr_open key ++ v ++ dquote :: r ->
  ~ In rangle v.
Proof.
  intros (a & Et & Ha) E Hin.
  apply in_split in Hin as (v1 & v2 & ->).
  assert (Hx : ~ In rangle (sheet_open ++ a)).
  { intros H. apply in_app_or in H as [H|H]; [|auto].
    vm_compute in H. intuition discriminate. }
  destruct (exists_last (l := v2 ++ dquote :: r)) as (y & c & Ey).
  { destruct v2; discriminate. }
  assert (E' : (sheet_open ++ a) ++ [rangle] =
               (p ++ attr_open key ++ v1 ++ rangle :: y) ++ [c]).
  { rewrite <- (app_assoc sheet_open), <- Et, E.
    rewrite <- !app_assoc. cbn [app]. rewrite Ey. reflexivity. }
  apply app_inj_tail in E' as [E' _].
  apply Hx. rewrite E'. apply in_or_app. right.
  apply in_or_app. right. apply in_or_app. right. now left.
Qed.

Lemma attr_or_default_clean key default tag :
  default <> [] -> ~ In dquote default -> ~ In rangle default ->
  let x := match first_attr key tag with Some v => v | None => default end in
  x <> [] /\ ~ In dquote x /\ (is_sheet_tag tag -> ~ In rangle x).
Proof.
  intros Hd Hq Hr. cbv zeta.
  destruct (first_attr key tag) as [v|] eqn:E.
  - apply first_attr_inv in E as (p & r & E & Hne & Hqv).
    repeat split; try assumption.
    intros Ht. exact (value_before_bracket tag p key v r Ht E).
  - repeat split; auto.
Qed.

(** X9.  The name and the state the advanced script prints for a tag are
    never empty and never hold a double quote; for a sheet tag, which ends
    at its first closing bracket, they hold no closing bracket either. *)
Theorem descriptor_values_are_clean tag :
  Advanced.name (Advanced.describe tag) <> [] /\
  ~ In dquote (Advanced.name (Advanced.describe tag)) /\
  Advanced.state (Advanced.describe tag) <> [] /\
  ~ In dquote (Advanced.state (Advanced.describe tag)) /\
  (is_sheet_tag tag ->
   ~ In rangle (Advanced.name (Advanced.describe tag)) /\
   ~ In rangle (Advanced.state (Advanced.describe tag))).
Proof.
  rewrite describe_first_attr. cbn [Advanced.name Advanced.state].
  destruct (attr_or_default_clean (lit "name") (lit "Unknown") tag)
    as (N1 & N2 & N3);
    [discriminate | vm_compute; intuition discriminate
     | vm_compute; intuition discriminate |].
  destruct (attr_or_default_clean (lit "state") (lit "visible") tag)
    as (S1 & S2 & S3);
    [discriminate | vm_compute; intuition discriminate
     | vm_compute; intuition discriminate |].
  repeat split; auto.
Qed.

Lemma descriptor_values_are_clean_witness :
  ~ In rangle (Advanced.name (Advanced.describe (xml "<sheet name='a>"))) /\
  ~ In rangle (Advanced.state (Advanced.describe (xml "<sheet name='a>"))).
Proof.
  apply (descriptor_values_are_clean (xml "<sheet name='a>")).
  exists (xml "name='a"). split.
  - reflexivity.
  - vm_compute. intuition discriminate.
Defined.

(** ** The library-backed reader and the fallback *)

(** X1.  When openpyxl imports and loads the workbook, the library-backed
    reader prints [Method: openpyxl] and one [Sheet:] line per sheet name in
    the order of the workbook, and returns True; the simple script then ends
    with status 0 without opening the file as an archive. *)
Theorem openpyxl_lists_the_sheets path w sheetnames :
  import_openpyxl w = None ->
  load_workbook w path = inr sheetnames ->
  Simple.inspect_via_openpyxl path (initial w) =
    (Normal true,
     State w (lit "Method: openpyxl" :: map (fun n => lit "Sheet: " ++ n) sheetnames)
             [call_import_openpyxl; call_load_workbook path]) /\
  (path_exists w path = true ->
   run_script (Simple.script path) (initial w) =
     (0%Z,
      State w (lit "Method: openpyxl" :: map (fun n => lit "Sheet: " ++ n) sheetnames)
              [call_exists path; call_import_openpyxl; call_load_workbook path])).
Proof.
  intros Hi Hl. split.
  - rewrite inspect_via_openpyxl_run.
    unfold openpyxl_ok, openpyxl_lines, openpyxl_calls, openpyxl_result.
    cbn [initial env]. rewrite Hi, Hl. reflexivity.
  - intros He. rewrite simple_script_run.
    unfold openpyxl_ok, openpyxl_lines, openpyxl_calls, openpyxl_result.
    cbn [initial env]. rewrite He, Hi, Hl. reflexivity.
Qed.

Lemma openpyxl_lists_the_sheets_witness :
  run_script Simple.main
    (initial (world_with_openpyxl file_path [lit "Prices"; lit "Holdings"])) =
  (0%Z,
   State (world_with_openpyxl file_path [lit "Prices"; lit "Holdings"])
         (lit "Method: openpyxl" ::
          map (fun n => lit "Sheet: " ++ n) [lit "Prices"; lit "Holdings"])
         [call_exists file_path; call_import_openpyxl;
          call_load_workbook file_path]).
Proof.
  apply (proj2 (openpyxl_lists_the_sheets file_path
                  (world_with_openpyxl file_path [lit "Prices"; lit "Holdings"])
                  [lit "Prices"; lit "Holdings"] eq_refl eq_refl)).
  reflexivity.
Defined.

(** X2.  When the import of openpyxl or the loading of the workbook raises,
    the library-backed reader returns False and nothing propagates.  An
    [ImportError] is passed over in silence; any other exception is printed
    as [openpyxl error: ] with its message.  When the import fails the
    workbook is not loaded. *)
Theorem openpyxl_failure_returns_false path w e :
  import_openpyxl w = Some e \/
  (import_openpyxl w = None /\ load_workbook w path = inl e) ->
  fst (Simple.inspect_via_openpyxl path (initial w)) = Normal false /\
  output_of (Simple.inspect_via_openpyxl path) w =
    (if is_ImportError e then [] else [lit "openpyxl error: " ++ exn_str e]) /\
  (import_openpyxl w = Some e ->
   calls (snd (Simple.inspect_via_openpyxl path (initial w))) =
     [call_import_openpyxl]).
Proof.
  intros H. unfold output_of. rewrite inspect_via_openpyxl_run.
  unfold openpyxl_ok, openpyxl_lines, openpyxl_calls, openpyxl_result.
  cbn [initial env fst snd extend stdout calls].
  destruct H as [Hi|[Hi Hl]].
  - rewrite Hi. repeat split.
  - rewrite Hi, Hl. repeat split. discriminate.
Qed.

Lemma openpyxl_failure_returns_false_witness :
  fst (Simple.inspect_via_openpyxl file_path (initial (example_world []))) =
    Normal false /\
  output_of (Simple.inspect_via_openpyxl file_path) (example_world []) = [] /\
  (import_openpyxl (example_world []) = Some no_openpyxl ->
   calls (snd (Simple.inspect_via_openpyxl file_path
                 (initial (example_world [])))) =
     [call_import_openpyxl]).
Proof.
  apply (openpyxl_failure_returns_false file_path (example_world [])
           no_openpyxl).
  left. reflexivity.
Defined.

(** X3.  The simple script runs the archive reader exactly when the
    library-backed reader has failed: its output is then the error line of
    openpyxl, if there is one, followed by what the archive reader prints on
    its own, and the status is 0. *)
Theorem simple_script_falls_back path w e :
  path_exists w path = true ->
  import_openpyxl w = Some e \/
  (import_openpyxl w = None /\ load_workbook w path = inl e) ->
  fst (run_script (Simple.script path) (initial w)) = 0%Z /\
  stdout (snd (run_script (Simple.script path) (initial w))) =
    (if is_ImportError e then [] else [lit "openpyxl error: " ++ exn_str e]) ++
    output_of (Simple.inspect_via_zip path) w /\
  In (call_ZipFile path) (calls (snd (run_script (Simple.script path) (initial w)))).
Proof.
  intros He H. rewrite simple_script_run, simple_output.
  unfold openpyxl_ok, openpyxl_lines, openpyxl_calls, openpyxl_result, zip_calls.
  cbn [initial env]. rewrite He.
  destruct H as [Hi|[Hi Hl]].
  - rewrite Hi. cbn [fst snd extend stdout calls app].
    repeat split. right. right. left. reflexivity.
  - rewrite Hi, Hl. cbn [fst snd extend stdout calls app].
    repeat split. right. right. right. left. reflexivity.
Qed.

(** A world in which openpyxl is installed but fails on the workbook, which
    the archive reader can read. *)
Lemma simple_script_falls_back_witness :
  let w := World (fun p => pystr_eqb p file_path) None
                 (fun _ => inl (Exn OtherException (lit "File is not a zip file")))
                 (fun _ => inr (workbook_archive (xml "<sheet name='Data'/>")))
                 (fun _ => lit "'utf-8' codec can't decode bytes") in
  fst (run_script Simple.main (initial w)) = 0%Z /\
  stdout (snd (run_script Simple.main (initial w))) =
    [lit "openpyxl error: File is not a zip file"] ++
    output_of (Simple.inspect_via_zip file_path) w /\
  In (call_ZipFile file_path) (calls (snd (run_script Simple.main (initial w)))).
Proof.
  cbv zeta.
  apply (simple_script_falls_back file_path
           (World (fun p => pystr_eqb p file_path) None
                  (fun _ => inl (Exn OtherException (lit "File is not a zip file")))
                  (fun _ => inr (workbook_archive (xml "<sheet name='Data'/>")))
                  (fun _ => lit "'utf-8' codec can't decode bytes"))
           (Exn OtherException (lit "File is not a zip file"))).
  - reflexivity.
  - right. split; reflexivity.
Defined.

(** ** What the archive reader prints *)

(** X4.  The archive reader never lets an exception out, from whatever
    state it is started.  When the archive cannot be opened, or the workbook
    part cannot be opened or read, it prints its banner and then the single
    line [zipfile error: ] with the message of the exception. *)
Theorem archive_errors_are_reported path w :
  (forall st,
      fst (Simple.inspect_via_zip path st) = Normal tt /\
      fst (Advanced.inspect_via_zip path st) = Normal tt) /\
  (forall e,
      ZipFile w path = inl e ->
      output_of (Simple.inspect_via_zip path) w =
        [lit "Method: zipfile (fallback)"; lit "zipfile error: " ++ exn_str e] /\
      output_of (Advanced.inspect_via_zip path) w =
        [lit "Method: zipfile (fallback)"; lit "zipfile error: " ++ exn_str e]) /\
  (forall z m e,
      ZipFile w path = inr z ->
      getinfo z workbook_xml = Some m ->
      payload m = inl e ->
      output_of (Simple.inspect_via_zip path) w =
        [lit "Method: zipfile (fallback)"; lit "zipfile error: " ++ exn_str e] /\
      output_of (Advanced.inspect_via_zip path) w =
        [lit "Method: zipfile (fallback)"; lit "zipfile error: " ++ exn_str e]).
Proof.
  split; [|split].
  - intros st. rewrite simple_inspect_via_zip_run, advanced_inspect_via_zip_run.
    split; reflexivity.
  - intros e He. rewrite simple_output, advanced_output. unfold zip_lines.
    rewrite He. split; reflexivity.
  - intros z m e Hz Hm Hp. rewrite simple_output, advanced_output.
    unfold zip_lines. rewrite Hz, (getinfo_member _ _ _ Hm), Hm, Hp.
    split; reflexivity.
Qed.

Lemma archive_errors_are_reported_witness :
  output_of (Simple.inspect_via_zip file_path)
    (world_not_a_zip file_path) =
    [lit "Method: zipfile (fallback)"; lit "zipfile error: File is not a zip file"] /\
  output_of (Advanced.inspect_via_zip file_path)
    (world_with file_path
       [ZipMember workbook_xml
          (inl (Exn BadZipFile (lit "Bad CRC-32 for file 'xl/workbook.xml'")))]) =
    [lit "Method: zipfile (fallback)";
     lit "zipfile error: Bad CRC-32 for file 'xl/workbook.xml'"].
Proof.
  split.
  - apply (proj1 (proj2 (archive_errors_are_reported file_path
                           (world_not_a_zip file_path)))
             (Exn BadZipFile (lit "File is not a zip file")) eq_refl).
  - apply (proj2 (proj2 (archive_errors_are_reported file_path
             (world_with file_path
                [ZipMember workbook_xml
                   (inl (Exn BadZipFile
                           (lit "Bad CRC-32 for file 'xl/workbook.xml'")))])))
             [ZipMember workbook_xml
                (inl (Exn BadZipFile
                        (lit "Bad CRC-32 for file 'xl/workbook.xml'")))]
             (ZipMember workbook_xml
                (inl (Exn BadZipFile
                        (lit "Bad CRC-32 for file 'xl/workbook.xml'"))))
             (Exn BadZipFile (lit "Bad CRC-32 for file 'xl/workbook.xml'"))
             eq_refl eq_refl eq_refl).
Defined.

(** * The claims that rest on the lemmas above *)

(** ** The lines of the output *)

Lemma split_lines_nonempty s : split_lines s <> [].
Proof.
  destruct s as [|c s]; simpl; [discriminate|].
  destruct (N.eqb c line_feed); [discriminate|].
  destruct (split_lines s); discriminate.
Qed.

Lemma split_lines_app a : forall t,
  split_lines (a ++ line_feed :: t) = split_lines a ++ split_lines t.
Proof.
  induction a as [|c a IH]; intros t; cbn [app split_lines].
  - rewrite N.eqb_refl. reflexivity.
  - rewrite IH. destruct (N.eqb c line_feed); [reflexivity|].
    pose proof (split_lines_nonempty a) as Hne.
    destruct (split_lines a); [contradiction | reflexivity].
Qed.

Lemma split_lines_plain a : ~ In line_feed a -> split_lines a = [a].
Proof.
  induction a as [|c a IH]; intros H; [reflexivity|].
  cbn [split_lines]. destruct (N.eqb_spec c line_feed) as [->|_].
  - exfalso. apply H. now left.
  - rewrite IH by (simpl in H; tauto). reflexivity.
Qed.

(** The lines of the output are the pieces of the arguments. *)
Lemma printed_lines_pieces out : printed_lines out = flat_map split_lines out.
Proof.
  unfold printed_lines, text_lines.
  assert (H : split_lines (stdout_text out) = flat_map split_lines out ++ [[]]).
  { induction out as [|a out IH]; [reflexivity|].
    unfold stdout_text in *. cbn [map concat flat_map].
    rewrite <- app_assoc. cbn [app].
    rewrite split_lines_app, IH, app_assoc. reflexivity. }
  rewrite H. apply removelast_last.
Qed.

(** Arguments without a line feed are the lines of the output. *)
Lemma printed_lines_plain out :
  (forall arg, In arg out -> ~ In line_feed arg) -> printed_lines out = out.
Proof.
  rewrite printed_lines_pieces.
  induction out as [|a out IH]; intros H; [reflexivity|].
  cbn [flat_map]. rewrite split_lines_plain by (apply H; now left).
  rewrite IH by (intros arg Hin; apply H; now right). reflexivity.
Qed.

(** ** The output as a function of the archive *)

(** What the reader prints depends on the world through the archive and
    the message of a decoding error alone. *)
Lemma zip_lines_same content_lines w1 w2 path :
  ZipFile w1 path = ZipFile w2 path ->
  (forall data, decode_error_str w1 data = decode_error_str w2 data) ->
  zip_lines content_lines w1 path = zip_lines content_lines w2 path.
Proof.
  intros Hz Hd. unfold zip_lines. rewrite Hz.
  destruct (ZipFile w2 path) as [e|z]; [reflexivity|].
  destruct (member_of workbook_xml (namelist z)); [|reflexivity].
  destruct (getinfo z workbook_xml) as [m|]; [|reflexivity].
  destruct (payload m) as [e|data]; [reflexivity|].
  destruct (Utf8.decode data); [reflexivity|]. now rewrite Hd.
Qed.

(** C8.  The lines the extraction prints are a function of the archive:
    two runs print the same lines whenever the path opens to the same
    archive (and the decoder words its errors alike), whatever else differs
    between the two worlds (other files, openpyxl being installed or not)
    and whatever was printed or called before.  A run leaves the world as
    it found it, so a second run right after the first prints the lines of
    the first once more.  The advanced script as a whole does the same when
    the path exists in both worlds or in neither. *)
Theorem extraction_is_a_function_of_the_archive path st1 st2 :
  ZipFile (env st1) path = ZipFile (env st2) path ->
  (forall data,
      decode_error_str (env st1) data = decode_error_str (env st2) data) ->
  (exists lines,
      stdout (snd (Simple.inspect_via_zip path st1)) = stdout st1 ++ lines /\
      stdout (snd (Simple.inspect_via_zip path st2)) = stdout st2 ++ lines /\
      stdout (snd (Simple.inspect_via_zip path
                     (snd (Simple.inspect_via_zip path st1)))) =
        (stdout st1 ++ lines) ++ lines) /\
  (exists lines,
      stdout (snd (Advanced.inspect_via_zip path st1)) = stdout st1 ++ lines /\
      stdout (snd (Advanced.inspect_via_zip path st2)) = stdout st2 ++ lines /\
      stdout (snd (Advanced.inspect_via_zip path
                     (snd (Advanced.inspect_via_zip path st1)))) =
        (stdout st1 ++ lines) ++ lines) /\
  env (snd (Simple.inspect_via_zip path st1)) = env st1 /\
  env (snd (Advanced.inspect_via_zip path st1)) = env st1 /\
  (path_exists (env st1) path = path_exists (env st2) path ->
   fst (run_script (Advanced.script path) st1) =
     fst (run_script (Advanced.script path) st2) /\
   exists lines,
     stdout (snd (run_script (Advanced.script path) st1)) = stdout st1 ++ lines /\
     stdout (snd (run_script (Advanced.script path) st2)) = stdout st2 ++ lines).
Proof.
  intros Hz Hd.
  pose proof (zip_lines_same simple_content_lines _ _ path Hz Hd) as Hs.
  pose proof (zip_lines_same advanced_content_lines _ _ path Hz Hd) as Ha.
  split; [|split; [|split; [|split]]].
  - exists (zip_banner :: zip_lines simple_content_lines (env st1) path).
    rewrite !simple_inspect_via_zip_run. cbn [snd extend stdout env].
    rewrite Hs. repeat split.
  - exists (zip_banner :: zip_lines advanced_content_lines (env st1) path).
    rewrite !advanced_inspect_via_zip_run. cbn [snd extend stdout env].
    rewrite Ha. repeat split.
  - rewrite simple_inspect_via_zip_run. reflexivity.
  - rewrite advanced_inspect_via_zip_run. reflexivity.
  - intros He. rewrite !advanced_script_run, He.
    destruct (path_exists (env st2) path).
    + split; [reflexivity|].
      exists (zip_banner :: zip_lines advanced_content_lines (env st1) path).
      cbn [snd extend stdout]. rewrite Ha. split; reflexivity.
    + split; [reflexivity|].
      exists [lit "File not found: " ++ path]. split; reflexivity.
Qed.

Lemma extraction_is_a_function_of_the_archive_witness :
  let z := workbook_archive (xml "<sheet name='Data' state='hidden'/>") in
  let other :=
    World (fun _ => true) None (fun _ => inr [lit "From openpyxl"])
          (fun _ => inr z)
          (fun _ => lit "'utf-8' codec can't decode bytes") in
  let st1 := initial (world_with file_path z) in
  let st2 := State other [lit "printed before"] [call_exists (lit "other.xlsx")] in
  exists lines,
    stdout (snd (Advanced.inspect_via_zip file_path st1)) = stdout st1 ++ lines /\
    stdout (snd (Advanced.inspect_via_zip file_path st2)) = stdout st2 ++ lines /\
    stdout (snd (Advanced.inspect_via_zip file_path
                   (snd (Advanced.inspect_via_zip file_path st1)))) =
      (stdout st1 ++ lines) ++ lines.
Proof.
  cbv zeta.
  apply (extraction_is_a_function_of_the_archive file_path
           (initial (world_with file_path
                       (workbook_archive (xml "<sheet name='Data' state='hidden'/>"))))
           (State
              (World (fun _ => true) None (fun _ => inr [lit "From openpyxl"])
                     (fun _ => inr (workbook_archive
                                      (xml "<sheet name='Data' state='hidden'/>")))
                     (fun _ => lit "'utf-8' codec can't decode bytes"))
              [lit "printed before"] [call_exists (lit "other.xlsx")])).
  - reflexivity.
  - intros data. reflexivity.
Defined.

(** ** The line of a tag *)

(** The advanced script prints the line of the [i]-th sheet tag as its
    [i]-th line after the banner. *)
Lemma advanced_line_of_tag path w z m data content tags i tag :
  ZipFile w path = inr z ->
  getinfo z workbook_xml = Some m ->
  payload m = inr data ->
  Utf8.decode data = Some content ->
  sheet_tags content tags ->
  nth_error tags i = Some tag ->
  nth_error (output_of (Advanced.inspect_via_zip path) w) (S i) =
    Some (Advanced.sheet_line (Advanced.describe tag)).
Proof.
  intros Hz Hm Hp Hd Ht Hi. rewrite advanced_output.
  rewrite (zip_lines_content _ w path z m data content) by assumption.
  unfold advanced_content_lines. rewrite (sheet_tags_findall _ _ Ht).
  cbn [nth_error]. rewrite nth_error_map, Hi. reflexivity.
Qed.

Lemma describe_name_found tag before n after :
  tag = before ++ attr_open (lit "name") ++ n ++ dquote :: after ->
  occurs (attr_open (lit "name")) (before ++ lit "name=") = false ->
  n <> [] -> quote_free n = true ->
  Advanced.name (Advanced.describe tag) = n.
Proof.
  intros -> Ho Hn Hq. apply quote_free_In in Hq.
  rewrite describe_first_attr. cbn [Advanced.name].
  rewrite (first_attr_found (lit "name") n after before Ho Hn Hq).
  reflexivity.
Qed.

Lemma describe_state_found tag before s after :
  tag = before ++ attr_open (lit "state") ++ s ++ dquote :: after ->
  occurs (attr_open (lit "state")) (before ++ lit "state=") = false ->
  s <> [] -> quote_free s = true ->
  Advanced.state (Advanced.describe tag) = s.
Proof.
  intros -> Ho Hs Hq. apply quote_free_In in Hq.
  rewrite describe_first_attr. cbn [Advanced.state].
  rewrite (first_attr_found (lit "state") s after before Ho Hs Hq).
  reflexivity.
Qed.

Lemma describe_state_default tag :
  occurs (attr_open (lit "state")) tag = false ->
  Advanced.state (Advanced.describe tag) = lit "visible".
Proof.
  intros Ho. rewrite describe_first_attr. cbn [Advanced.state].
  destruct (first_attr (lit "state") tag) as [v|] eqn:E; [|reflexivity].
  exfalso. apply first_attr_inv in E as (p & r & E & _).
  assert (T : occurs (attr_open (lit "state")) tag = true)
    by (apply occurs_true; exists p, (v ++ dquote :: r); exact E).
  congruence.
Qed.

(** C2, as the code has it.  For every sheet tag the advanced script
    matches in the workbook text: when the tag contains [name=QnQ] and
    [state=QsQ] (Q the double quote; for instance Foo and hidden) and the
    text [name=Q] does not stand in the tag before that name nor [state=Q]
    before that state, the tag yields the name [n] and the state [s], and
    its line, printed at the place of the tag, is [Sheet: n (State: s)];
    when the tag contains [name=QnQ] with no [name=Q] before it and the
    text [state=Q] stands nowhere in it (for instance the name Bar alone),
    it yields [n] and [visible] and the line [Sheet: n (State: visible)]. *)
Theorem named_tag_yields_its_values
        path w z m data content tags i tag before n after :
  ZipFile w path = inr z ->
  getinfo z workbook_xml = Some m ->
  payload m = inr data ->
  Utf8.decode data = Some content ->
  sheet_tags content tags ->
  nth_error tags i = Some tag ->
  tag = before ++ attr_open (lit "name") ++ n ++ dquote :: after ->
  occurs (attr_open (lit "name")) (before ++ lit "name=") = false ->
  n <> [] -> quote_free n = true ->
  (forall before' s after',
      tag = before' ++ attr_open (lit "state") ++ s ++ dquote :: after' ->
      occurs (attr_open (lit "state")) (before' ++ lit "state=") = false ->
      s <> [] -> quote_free s = true ->
      Advanced.describe tag = Advanced.Descriptor n s /\
      nth_error (output_of (Advanced.inspect_via_zip path) w) (S i) =
        Some (lit "Sheet: " ++ n ++ lit " (State: " ++ s ++ lit ")")) /\
  (occurs (attr_open (lit "state")) tag = false ->
   Advanced.describe tag = Advanced.Descriptor n (lit "visible") /\
   nth_error (output_of (Advanced.inspect_via_zip path) w) (S i) =
     Some (lit "Sheet: " ++ n ++ lit " (State: visible)")).
Proof.
  intros Hz Hm Hp Hd Ht Hi En Hon Hn Hqn.
  pose proof (advanced_line_of_tag path w z m data content tags i tag
                Hz Hm Hp Hd Ht Hi) as Hline.
  pose proof (describe_name_found tag before n after En Hon Hn Hqn) as Hname.
  split.
  - intros before' s after' Es Hos Hs Hqs.
    pose proof (describe_state_found tag before' s after' Es Hos Hs Hqs)
      as Hstate.
    assert (D : Advanced.describe tag = Advanced.Descriptor n s).
    { destruct (Advanced.describe tag) as [n0 s0].
      cbn [Advanced.name Advanced.state] in Hname, Hstate. now subst. }
    split; [exact D|]. rewrite Hline, D. reflexivity.
  - intros Hos. pose proof (describe_state_default tag Hos) as Hstate.
    assert (D : Advanced.describe tag = Advanced.Descriptor n (lit "visible")).
    { destruct (Advanced.describe tag) as [n0 s0].
      cbn [Advanced.name Advanced.state] in Hname, Hstate. now subst. }
    split; [exact D|]. rewrite Hline, D. reflexivity.
Qed.

Lemma named_tag_yields_its_values_witness :
  let content := xml "<sheets><sheet name='Foo' state='hidden'/><sheet name='Bar'/></sheets>" in
  (Advanced.describe (xml "<sheet name='Foo' state='hidden'/>") =
     Advanced.Descriptor (lit "Foo") (lit "hidden") /\
   nth_error (output_of (Advanced.inspect_via_zip file_path)
                (example_world content)) 1 =
     Some (lit "Sheet: " ++ lit "Foo" ++ lit " (State: " ++ lit "hidden" ++ lit ")")) /\
  (Advanced.describe (xml "<sheet name='Bar'/>") =
     Advanced.Descriptor (lit "Bar") (lit "visible") /\
   nth_error (output_of (Advanced.inspect_via_zip file_path)
                (example_world content)) 2 =
     Some (lit "Sheet: " ++ lit "Bar" ++ lit " (State: visible)")).
Proof.
  cbv zeta. split.
  - refine (proj1
              (named_tag_yields_its_values file_path
                 (example_world (xml "<sheets><sheet name='Foo' state='hidden'/><sheet name='Bar'/></sheets>"))
                 (workbook_archive (xml "<sheets><sheet name='Foo' state='hidden'/><sheet name='Bar'/></sheets>"))
                 (ZipMember workbook_xml
                    (inr (ascii_bytes (xml "<sheets><sheet name='Foo' state='hidden'/><sheet name='Bar'/></sheets>"))))
                 (ascii_bytes (xml "<sheets><sheet name='Foo' state='hidden'/><sheet name='Bar'/></sheets>"))
                 (xml "<sheets><sheet name='Foo' state='hidden'/><sheet name='Bar'/></sheets>")
                 [xml "<sheet name='Foo' state='hidden'/>"; xml "<sheet name='Bar'/>"]
                 0 (xml "<sheet name='Foo' state='hidden'/>")
                 (lit "<sheet ") (lit "Foo") (xml " state='hidden'/>")
                 _ _ _ _ _ _ _ _ _ _)
              (xml "<sheet name='Foo' ") (lit "hidden") (lit "/>") _ _ _ _);
      try solve [reflexivity | discriminate | vm_compute; reflexivity].
    exact (findall_sheet_tags (xml "<sheets><sheet name='Foo' state='hidden'/><sheet name='Bar'/></sheets>")).
  - refine (proj2
              (named_tag_yields_its_values file_path
                 (example_world (xml "<sheets><sheet name='Foo' state='hidden'/><sheet name='Bar'/></sheets>"))
                 (workbook_archive (xml "<sheets><sheet name='Foo' state='hidden'/><sheet name='Bar'/></sheets>"))
                 (ZipMember workbook_xml
                    (inr (ascii_bytes (xml "<sheets><sheet name='Foo' state='hidden'/><sheet name='Bar'/></sheets>"))))
                 (ascii_bytes (xml "<sheets><sheet name='Foo' state='hidden'/><sheet name='Bar'/></sheets>"))
                 (xml "<sheets><sheet name='Foo' state='hidden'/><sheet name='Bar'/></sheets>")
                 [xml "<sheet name='Foo' state='hidden'/>"; xml "<sheet name='Bar'/>"]
                 1 (xml "<sheet name='Bar'/>")
                 (lit "<sheet ") (lit "Bar") (lit "/>")
                 _ _ _ _ _ _ _ _ _ _) _);
      try solve [reflexivity | discriminate | vm_compute; reflexivity].
    exact (findall_sheet_tags (xml "<sheets><sheet name='Foo' state='hidden'/><sheet name='Bar'/></sheets>")).
Defined.

(** C2 as stated fails: a matched tag can contain the name Foo and the
    state hidden and yield another name, and contain the name Bar and no
    state attribute and yield a state that is not [visible], when an
    attribute whose name ends in [name] or [state] stands before. *)
Lemma tag_with_the_attributes_yields_other_values :
  let content :=
    xml "<sheets><sheet filename='X' name='Foo' state='hidden'/><sheet laststate='old' name='Bar'/></sheets>" in
  findall Advanced.tag_re content =
    [xml "<sheet filename='X' name='Foo' state='hidden'/>";
     xml "<sheet laststate='old' name='Bar'/>"] /\
  Advanced.describe (xml "<sheet filename='X' name='Foo' state='hidden'/>") =
    Advanced.Descriptor (lit "X") (lit "hidden") /\
  Advanced.describe (xml "<sheet laststate='old' name='Bar'/>") =
    Advanced.Descriptor (lit "Bar") (lit "old") /\
  output_of (Advanced.inspect_via_zip file_path) (example_world content) =
    [lit "Method: zipfile (fallback)";
     lit "Sheet: X (State: hidden)";
     lit "Sheet: Bar (State: old)"].
Proof. cbv zeta. repeat split; vm_compute; reflexivity. Qed.

(** ** Attributes around the name *)






(** ** One line per sheet tag *)

Lemma sheet_tags_are_tags s ts :
  sheet_tags s ts -> forall t, In t ts -> is_sheet_tag t.
Proof.
  induction 1 as [|t r ts Ht _ IH|c s ts _ _ IH]; intros t' Hin.
  - contradiction.
  - destruct Hin as [<-|Hin]; [assumption | now apply IH].
  - now apply IH.
Qed.

(** A value found in a tag is a piece of the tag. *)
Lemma attr_or_default_without c key default tag :
  ~ In c tag -> ~ In c default ->
  ~ In c (match first_attr key tag with Some v => v | None => default end).
Proof.
  intros Ht Hd. destruct (first_attr key tag) as [v|] eqn:E; [|assumption].
  apply first_attr_inv in E as (p & r & -> & _).
  intros Hin. apply Ht. apply in_or_app. right. apply in_or_app. right.
  apply in_or_app. now left.
Qed.

Lemma advanced_line_without_line_feed tag :
  ~ In line_feed tag ->
  ~ In line_feed (Advanced.sheet_line (Advanced.describe tag)) /\
  ~ In line_feed (lit "Sheet: " ++ Advanced.name (Advanced.describe tag)).
Proof.
  intros Ht. rewrite describe_first_attr.
  unfold Advanced.sheet_line. cbn [Advanced.name Advanced.state].
  assert (Hn := attr_or_default_without line_feed (lit "name") (lit "Unknown")
                  tag Ht).
  assert (Hs := attr_or_default_without line_feed (lit "state") (lit "visible")
                  tag Ht).
  assert (Hn' : ~ In line_feed
                  match first_attr (lit "name") tag with
                  | Some v => v
                  | None => lit "Unknown"
                  end)
    by (apply Hn; vm_compute; intuition discriminate).
  assert (Hs' : ~ In line_feed
                  match first_attr (lit "state") tag with
                  | Some v => v
                  | None => lit "visible"
                  end)
    by (apply Hs; vm_compute; intuition discriminate).
  split.
  - intros H. apply in_app_or in H as [H|H];
      [vm_compute in H; intuition discriminate|].
    apply in_app_or in H as [H|H]; [auto|].
    apply in_app_or in H as [H|H];
      [vm_compute in H; intuition discriminate|].
    apply in_app_or in H as [H|H]; [auto|].
    vm_compute in H. intuition discriminate.
  - intros H. apply in_app_or in H as [H|H];
      [vm_compute in H; intuition discriminate | auto].
Qed.

(** When no argument after the banner holds a line feed and all of them
    start with [Sheet:], they are the sheet lines of the output. *)
Lemma printed_sheet_lines_plain (f : pystr -> pystr) xs :
  (forall x, In x xs -> ~ In line_feed (f x)) ->
  (forall x, is_sheet_line (f x) = true) ->
  printed_sheet_lines (zip_banner :: map f xs) = map f xs.
Proof.
  intros Hlf Hsheet. unfold printed_sheet_lines.
  rewrite printed_lines_plain.
  - change (filter is_sheet_line (zip_banner :: map f xs))
      with (sheet_lines (map f xs)).
    now apply sheet_lines_all.
  - intros arg [<-|Hin]; [vm_compute; intuition discriminate|].
    apply in_map_iff in Hin as (x & <- & Hx). now apply Hlf.
Qed.

(** C1, as the code has it.  For every archive that opens and whose
    [xl/workbook.xml] reads and decodes to a text with the sheet tags
    [tags] (each running from [<sheet ] to the next closing bracket):
    the advanced script makes one [Sheet:] print call per tag, in the order
    of the tags, and when no tag holds a line feed these are the [Sheet:]
    lines of its output, exactly as many as tags and in their order;
    the simple script's output has exactly one [Sheet:] line per tag, in
    the order of the tags and with the tag's name, when in addition the
    text is a plain workbook (every tag has one name attribute), and it
    matches nowhere in a tag in which the text [name=Q] does not stand, Q
    the double quote, so such a tag gives no line.  In general the simple
    script prints one line per match of its own pattern, each naming the
    value of a name attribute that follows [<sheet ] with no closing bracket
    in between. *)
Theorem one_line_per_sheet_tag path w z m data content tags :
  ZipFile w path = inr z ->
  getinfo z workbook_xml = Some m ->
  payload m = inr data ->
  Utf8.decode data = Some content ->
  sheet_tags content tags ->
  sheet_lines (output_of (Advanced.inspect_via_zip path) w) =
    map (fun tag => Advanced.sheet_line (Advanced.describe tag)) tags /\
  length (sheet_lines (output_of (Advanced.inspect_via_zip path) w)) =
    length tags /\
  ((forall tag, In tag tags -> ~ In line_feed tag) ->
   printed_sheet_lines (output_of (Advanced.inspect_via_zip path) w) =
     map (fun tag => Advanced.sheet_line (Advanced.describe tag)) tags /\
   length (printed_sheet_lines (output_of (Advanced.inspect_via_zip path) w)) =
     length tags) /\
  (forall names,
      plain_workbook content names ->
      (forall tag, In tag tags -> ~ In line_feed tag) ->
      printed_sheet_lines (output_of (Simple.inspect_via_zip path) w) =
        map (fun tag => lit "Sheet: " ++ Advanced.name (Advanced.describe tag))
            tags /\
      length (printed_sheet_lines (output_of (Simple.inspect_via_zip path) w)) =
        length tags) /\
  (forall tag t1 t2 rest,
      In tag tags ->
      occurs (attr_open (lit "name")) tag = false ->
      tag = t1 ++ t2 -> t2 <> [] ->
      match_here Simple.sheet_re (t2 ++ rest) = None) /\
  sheet_lines (output_of (Simple.inspect_via_zip path) w) =
    map Simple.sheet_line (findall Simple.sheet_re content) /\
  (forall line,
      In line (sheet_lines (output_of (Simple.inspect_via_zip path) w)) ->
      exists x a v y,
        content =
          x ++ sheet_open ++ a ++ attr_open (lit "name") ++ v ++ dquote :: y /\
        ~ In rangle a /\ v <> [] /\ ~ In dquote v /\
        line = lit "Sheet: " ++ v).
Proof.
  intros Hz Hm Hp Hd Ht.
  rewrite advanced_output, simple_output.
  rewrite !(zip_lines_content _ w path z m data content) by assumption.
  unfold advanced_content_lines, simple_content_lines.
  rewrite (sheet_tags_findall _ _ Ht).
  assert (Ha : sheet_lines
                 (zip_banner ::
                  map (fun tag => Advanced.sheet_line (Advanced.describe tag)) tags) =
               map (fun tag => Advanced.sheet_line (Advanced.describe tag)) tags).
  { change (sheet_lines (zip_banner :: ?l)) with (sheet_lines l).
    apply sheet_lines_all. intros tag. apply advanced_sheet_line_is. }
  assert (Hs : sheet_lines
                 (zip_banner ::
                  map Simple.sheet_line (findall Simple.sheet_re content)) =
               map Simple.sheet_line (findall Simple.sheet_re content)).
  { change (sheet_lines (zip_banner :: ?l)) with (sheet_lines l).
    apply sheet_lines_all. intros sheet. apply simple_sheet_line_is. }
  rewrite Ha, Hs.
  split; [reflexivity|]. split; [apply length_map|].
  split; [|split; [|split; [|split; [reflexivity|]]]].
  - intros Hlf.
    rewrite (printed_sheet_lines_plain
               (fun tag => Advanced.sheet_line (Advanced.describe tag))).
    + split; [reflexivity | apply length_map].
    + intros tag Hin. apply advanced_line_without_line_feed. now apply Hlf.
    + intros tag. apply advanced_sheet_line_is.
  - intros names Hplain Hlf.
    destruct (plain_workbook_findall _ _ Hplain) as [Hsimple Hnames].
    rewrite (sheet_tags_findall _ _ Ht) in Hnames.
    rewrite Hsimple, <- Hnames, map_map.
    rewrite (printed_sheet_lines_plain
               (fun tag => Simple.sheet_line
                             (Advanced.name (Advanced.describe tag)))).
    + split; [reflexivity | apply length_map].
    + intros tag Hin. apply advanced_line_without_line_feed. now apply Hlf.
    + intros tag. apply simple_sheet_line_is.
  - intros tag t1 t2 rest Hin Ho E Hne.
    exact (simple_no_match_in_tag tag t1 t2 rest
             (sheet_tags_are_tags _ _ Ht tag Hin) Ho E Hne).
  - intros line Hin. apply in_map_iff in Hin as (v & <- & Hv).
    destruct (simple_findall_In _ _ Hv) as (x & a & y & E & Hra & Hne & Hq).
    exists x, a, v, y. auto.
Qed.

Lemma one_line_per_sheet_tag_witness :
  let content :=
    xml "<workbook><sheets><sheet name='Sheet1' sheetId='1' r:id='rId1'/><sheet state='hidden' name='Data' sheetId='2'/></sheets></workbook>" in
  let tags :=
    [xml "<sheet name='Sheet1' sheetId='1' r:id='rId1'/>";
     xml "<sheet state='hidden' name='Data' sheetId='2'/>"] in
  (printed_sheet_lines (output_of (Advanced.inspect_via_zip file_path)
                          (example_world content)) =
     map (fun tag => Advanced.sheet_line (Advanced.describe tag)) tags /\
   length (printed_sheet_lines (output_of (Advanced.inspect_via_zip file_path)
                                  (example_world content))) = length tags) /\
  (printed_sheet_lines (output_of (Simple.inspect_via_zip file_path)
                          (example_world content)) =
     map (fun tag => lit "Sheet: " ++ Advanced.name (Advanced.describe tag))
         tags /\
   length (printed_sheet_lines (output_of (Simple.inspect_via_zip file_path)
                                  (example_world content))) = length tags).
Proof.
  cbv zeta.
  assert (H := one_line_per_sheet_tag file_path
           (example_world (xml "<workbook><sheets><sheet name='Sheet1' sheetId='1' r:id='rId1'/><sheet state='hidden' name='Data' sheetId='2'/></sheets></workbook>"))
           (workbook_archive (xml "<workbook><sheets><sheet name='Sheet1' sheetId='1' r:id='rId1'/><sheet state='hidden' name='Data' sheetId='2'/></sheets></workbook>"))
           (ZipMember workbook_xml (inr (ascii_bytes (xml "<workbook><sheets><sheet name='Sheet1' sheetId='1' r:id='rId1'/><sheet state='hidden' name='Data' sheetId='2'/></sheets></workbook>"))))
           (ascii_bytes (xml "<workbook><sheets><sheet name='Sheet1' sheetId='1' r:id='rId1'/><sheet state='hidden' name='Data' sheetId='2'/></sheets></workbook>"))
           (xml "<workbook><sheets><sheet name='Sheet1' sheetId='1' r:id='rId1'/><sheet state='hidden' name='Data' sheetId='2'/></sheets></workbook>")
           [xml "<sheet name='Sheet1' sheetId='1' r:id='rId1'/>";
            xml "<sheet state='hidden' name='Data' sheetId='2'/>"]).
  destruct H as (_ & _ & Hadv & Hsimple & _).
  - reflexivity.
  - vm_compute. reflexivity.
  - reflexivity.
  - vm_compute. reflexivity.
  - exact (findall_sheet_tags (xml "<workbook><sheets><sheet name='Sheet1' sheetId='1' r:id='rId1'/><sheet state='hidden' name='Data' sheetId='2'/></sheets></workbook>")).
  - assert (Hlf : forall tag,
               In tag [xml "<sheet name='Sheet1' sheetId='1' r:id='rId1'/>";
                       xml "<sheet state='hidden' name='Data' sheetId='2'/>"] ->
               ~ In line_feed tag).
    { intros tag [<-|[<-|[]]]; vm_compute; intuition discriminate. }
    split; [exact (Hadv Hlf)|].
    apply (Hsimple [lit "Sheet1"; lit "Data"]); [|exact Hlf].
    change (plain_workbook
              (xml "<workbook><sheets>" ++
               plain_tag [] (lit "Sheet1") (xml " sheetId='1' r:id='rId1'/") ++
               [] ++
               plain_tag (xml "state='hidden' ") (lit "Data") (xml " sheetId='2'/") ++
               xml "</sheets></workbook>")
              [lit "Sheet1"; lit "Data"]).
    apply plain_sheet.
    + reflexivity.
    + unfold plain_tag_ok. repeat split; solve [reflexivity | discriminate].
    + apply plain_sheet.
      * reflexivity.
      * unfold plain_tag_ok. repeat split; solve [reflexivity | discriminate].
      * apply plain_end. reflexivity.
Defined.

(** C1 as stated fails twice.  A workbook text with one sheet tag, which
    has no name attribute, gives no [Sheet:] line in the simple script and
    one in the advanced script.  And a workbook text with one sheet tag
    whose name holds a line feed followed by [Sheet:] gives two [Sheet:]
    lines in the output of either script. *)
Lemma sheet_lines_differ_from_sheet_tags :
  (let content := xml "<sheet sheetId='1'/>" in
   Utf8.decode (ascii_bytes content) = Some content /\
   sheet_tags content [content] /\
   printed_sheet_lines (output_of (Simple.inspect_via_zip file_path)
                          (example_world content)) = [] /\
   printed_sheet_lines (output_of (Advanced.inspect_via_zip file_path)
                          (example_world content)) =
     [lit "Sheet: Unknown (State: visible)"]) /\
  (let content :=
     xml "<sheet name='First" ++ line_feed :: xml "Sheet: Second'/>" in
   Utf8.decode (ascii_bytes content) = Some content /\
   sheet_tags content [content] /\
   printed_sheet_lines (output_of (Advanced.inspect_via_zip file_path)
                          (example_world content)) =
     [lit "Sheet: First"; lit "Sheet: Second (State: visible)"] /\
   printed_sheet_lines (output_of (Simple.inspect_via_zip file_path)
                          (example_world content)) =
     [lit "Sheet: First"; lit "Sheet: Second"]).
Proof.
  cbv zeta. split.
  - split; [vm_compute; reflexivity|].
    split; [exact (findall_sheet_tags (xml "<sheet sheetId='1'/>"))|].
    split; vm_compute; reflexivity.
  - split; [vm_compute; reflexivity|].
    split; [exact (findall_sheet_tags
                     (xml "<sheet name='First" ++ line_feed ::
                      xml "Sheet: Second'/>"))|].
    split; vm_compute; reflexivity.
Qed.
